(** * express-mini: a 2 channel analog expression controller

    Shallow embedding of [express-mini.ino]: the [Device] class (note
    handling, the sampling/emission loop, configuration import/export) and
    the two packet dispatchers [MIDI] and [Link], with the properties of the
    specification proved over it.

    The sketch is single threaded and keeps its state in global objects, so
    every method is a function from the state of the sketch to its next
    state.  The libraries the sketch links against (V2MIDI, V2LED,
    V2Potentiometer, V2Link, ArduinoJson, the Arduino core) are not part of
    the repository: what the sketch needs from them is the interface
    [Libraries] below, and the calls the sketch makes into the write-only
    drivers are kept as logs. *)

From Stdlib Require Import ZArith QArith Qround Lia DecimalString.
From stdpp Require Import base list strings.

Local Open Scope Z_scope.

(** ** Machine integers *)

(** Conversion to [uint8_t]. *)
Definition to_uint8 (z : Z) : Z := z mod 256.

(** Conversion to [int8_t] (two's complement). *)
Definition to_int8 (z : Z) : Z := (z + 128) mod 256 - 128.

(** Conversion to [unsigned long], 32 bits on the SAMD target. *)
Definition to_ulong (z : Z) : Z := z mod 2 ^ 32.

(** ** MIDI packets (V2MIDI::Packet) *)

Inductive Message : Type :=
  | Empty
  | NoteOn (channel note velocity : Z)
  | NoteOff (channel note velocity : Z)
  | ControlChange (channel controller value : Z)
  | SystemReset
  | Other (status : Z).

(** A packet is a message tagged with the port (the address in the chain). *)
Record Packet : Type := mkPacket { port : Z; message : Message }.

(** [V2MIDI::Packet _midi{}] *)
Definition Packet_init : Packet := mkPacket 0 Empty.

Definition getPort (m : Packet) : Z := port m.

Definition setPort (p : Z) (m : Packet) : Packet := mkPacket p (message m).

Definition setControlChange (channel controller value : Z) (m : Packet) : Packet :=
  mkPacket (port m) (ControlChange channel controller value).

(** ** Link packets (V2Link::Packet) *)

Inductive LinkType : Type := LinkMIDI | LinkOther.

Record LinkPacket : Type := mkLinkPacket {
  getType : LinkType;
  getAddress : Z;
  payload : Packet
}.

(** ** JSON documents (ArduinoJson) *)

#[warnings="-register-all"] Inductive Json : Type :=
  | JNull
  | JInt (z : Z)
  | JStr (s : string)
  | JObj (members : list (string * Json))
  | JArr (elements : list Json).

Definition JsonObject : Type := list (string * Json).

(** [json[key]] as an rvalue. *)
Fixpoint json_get (key : string) (o : JsonObject) : option Json :=
  match o with
  | [] => None
  | (k, v) :: o' => if String.eqb k key then Some v else json_get key o'
  end.

(** [json[key] = v]: the member is replaced, or added at the end. *)
Fixpoint json_set (key : string) (v : Json) (o : JsonObject) : JsonObject :=
  match o with
  | [] => [(key, v)]
  | (k, w) :: o' =>
      if String.eqb k key then (k, v) :: o' else (k, w) :: json_set key v o'
  end.

Definition isNull (v : Json) : bool :=
  match v with JNull => true | _ => false end.

(** A [JsonArray], as its elements in order. *)
Definition JsonArray : Type := list Json.

(** [sprintf(buffer, "%d", n)] for a number that is not negative. *)
Definition decimal (n : nat) : string := NilZero.string_of_uint (Nat.to_uint n).

(** ** The libraries the sketch is linked against *)

Class Libraries : Type := {
  (** C [float], with the two operations the sketch uses. *)
  flt : Type;
  flt_of_int : Z -> flt;
  flt_div : flt -> flt -> flt;
  (** V2Potentiometer, constructed with [&_config]. *)
  Poti : Type;
  poti_new : Poti;
  poti_reset : Poti -> Poti;
  poti_measure : flt -> Poti -> Poti;
  poti_getStep : Poti -> Z;
  poti_getFraction : Poti -> flt;
  (** [V2MIDI::C(3)] and the controller numbers of [V2MIDI::CC]. *)
  C3 : Z;
  GeneralPurpose1 : Z;
  AllSoundOff : Z;
  AllNotesOff : Z;
  (** ArduinoJson's conversion of a value to [uint8_t]. *)
  json_as_uint8 : Json -> Z
}.

(** Calls into the WS2812 driver [LED]. *)
Inductive LedCall `{Libraries} : Type :=
  | LedReset
  | LedSetHSV (index h s : Z) (v : flt)
  | LedSetBrightness (index : Z) (v : flt)
  | LedBegin
  | LedSetMaxBrightness (fraction : flt).

#[export] Instance Poti_inhabited `{Libraries} : Inhabited Poti := populate poti_new.

Section Sketch.

Context `{L : Libraries}.

(** [constexpr static uint8_t n_potis = 2] *)
Definition n_potis : nat := 2.

(** ** State of the sketch *)

Record Sketch : Type := mkSketch {
  (** [Device] *)
  config_channel : Z;
  _potis : list Poti;
  _steps : list Z;
  _measure_usec : Z;
  _events_usec : Z;
  _midi : Packet;
  (** [Device.usb.midi]: packets sent, and whether a host is connected *)
  usb_midi : list Packet;
  usb_connected : bool;
  (** the drivers: [LED], [Plug], [Socket], the pin [PIN_LED_ONBOARD] *)
  LED : list LedCall;
  Plug : list Packet;
  Socket : list Packet;
  led_onboard : bool;
  (** the packet buffers of [MIDI] and [Link] *)
  MIDI_midi : Packet;
  Link_midi : Packet;
  (** the environment: the time in microseconds at the k-th call of
      [micros()], the number of calls made so far, and the value
      [analogRead(PIN_CHANNEL_SENSE + i)] returns *)
  clock : nat -> Z;
  clock_reads : nat;
  analog : nat -> Z
}.

Definition set_config_channel (v : Z) (s : Sketch) : Sketch :=
  mkSketch v (_potis s) (_steps s) (_measure_usec s) (_events_usec s) (_midi s)
    (usb_midi s) (usb_connected s) (LED s) (Plug s) (Socket s) (led_onboard s)
    (MIDI_midi s) (Link_midi s) (clock s) (clock_reads s) (analog s).

Definition set_potis (v : list Poti) (s : Sketch) : Sketch :=
  mkSketch (config_channel s) v (_steps s) (_measure_usec s) (_events_usec s) (_midi s)
    (usb_midi s) (usb_connected s) (LED s) (Plug s) (Socket s) (led_onboard s)
    (MIDI_midi s) (Link_midi s) (clock s) (clock_reads s) (analog s).

Definition set_steps (v : list Z) (s : Sketch) : Sketch :=
  mkSketch (config_channel s) (_potis s) v (_measure_usec s) (_events_usec s) (_midi s)
    (usb_midi s) (usb_connected s) (LED s) (Plug s) (Socket s) (led_onboard s)
    (MIDI_midi s) (Link_midi s) (clock s) (clock_reads s) (analog s).

Definition set_measure_usec (v : Z) (s : Sketch) : Sketch :=
  mkSketch (config_channel s) (_potis s) (_steps s) v (_events_usec s) (_midi s)
    (usb_midi s) (usb_connected s) (LED s) (Plug s) (Socket s) (led_onboard s)
    (MIDI_midi s) (Link_midi s) (clock s) (clock_reads s) (analog s).

Definition set_events_usec (v : Z) (s : Sketch) : Sketch :=
  mkSketch (config_channel s) (_potis s) (_steps s) (_measure_usec s) v (_midi s)
    (usb_midi s) (usb_connected s) (LED s) (Plug s) (Socket s) (led_onboard s)
    (MIDI_midi s) (Link_midi s) (clock s) (clock_reads s) (analog s).

Definition set_midi (v : Packet) (s : Sketch) : Sketch :=
  mkSketch (config_channel s) (_potis s) (_steps s) (_measure_usec s) (_events_usec s) v
    (usb_midi s) (usb_connected s) (LED s) (Plug s) (Socket s) (led_onboard s)
    (MIDI_midi s) (Link_midi s) (clock s) (clock_reads s) (analog s).

Definition set_usb_midi (v : list Packet) (s : Sketch) : Sketch :=
  mkSketch (config_channel s) (_potis s) (_steps s) (_measure_usec s) (_events_usec s) (_midi s)
    v (usb_connected s) (LED s) (Plug s) (Socket s) (led_onboard s)
    (MIDI_midi s) (Link_midi s) (clock s) (clock_reads s) (analog s).

Definition set_LED (v : list LedCall) (s : Sketch) : Sketch :=
  mkSketch (config_channel s) (_potis s) (_steps s) (_measure_usec s) (_events_usec s) (_midi s)
    (usb_midi s) (usb_connected s) v (Plug s) (Socket s) (led_onboard s)
    (MIDI_midi s) (Link_midi s) (clock s) (clock_reads s) (analog s).

Definition set_Plug (v : list Packet) (s : Sketch) : Sketch :=
  mkSketch (config_channel s) (_potis s) (_steps s) (_measure_usec s) (_events_usec s) (_midi s)
    (usb_midi s) (usb_connected s) (LED s) v (Socket s) (led_onboard s)
    (MIDI_midi s) (Link_midi s) (clock s) (clock_reads s) (analog s).

Definition set_Socket (v : list Packet) (s : Sketch) : Sketch :=
  mkSketch (config_channel s) (_potis s) (_steps s) (_measure_usec s) (_events_usec s) (_midi s)
    (usb_midi s) (usb_connected s) (LED s) (Plug s) v (led_onboard s)
    (MIDI_midi s) (Link_midi s) (clock s) (clock_reads s) (analog s).

Definition set_led_onboard (v : bool) (s : Sketch) : Sketch :=
  mkSketch (config_channel s) (_potis s) (_steps s) (_measure_usec s) (_events_usec s) (_midi s)
    (usb_midi s) (usb_connected s) (LED s) (Plug s) (Socket s) v
    (MIDI_midi s) (Link_midi s) (clock s) (clock_reads s) (analog s).

Definition set_MIDI_midi (v : Packet) (s : Sketch) : Sketch :=
  mkSketch (config_channel s) (_potis s) (_steps s) (_measure_usec s) (_events_usec s) (_midi s)
    (usb_midi s) (usb_connected s) (LED s) (Plug s) (Socket s) (led_onboard s)
    v (Link_midi s) (clock s) (clock_reads s) (analog s).

Definition set_Link_midi (v : Packet) (s : Sketch) : Sketch :=
  mkSketch (config_channel s) (_potis s) (_steps s) (_measure_usec s) (_events_usec s) (_midi s)
    (usb_midi s) (usb_connected s) (LED s) (Plug s) (Socket s) (led_onboard s)
    (MIDI_midi s) v (clock s) (clock_reads s) (analog s).

Definition set_clock_reads (v : nat) (s : Sketch) : Sketch :=
  mkSketch (config_channel s) (_potis s) (_steps s) (_measure_usec s) (_events_usec s) (_midi s)
    (usb_midi s) (usb_connected s) (LED s) (Plug s) (Socket s) (led_onboard s)
    (MIDI_midi s) (Link_midi s) (clock s) v (analog s).

(** ** The Arduino core and the drivers *)

(** [micros()]: the clock is read, and wraps at 32 bits. *)
Definition micros (s : Sketch) : Z * Sketch :=
  (to_ulong (clock s (clock_reads s)), set_clock_reads (S (clock_reads s)) s).

(** [analogRead(PIN_CHANNEL_SENSE + i)] *)
Definition analogRead (i : nat) (s : Sketch) : Z := analog s i.

(** [digitalWrite(PIN_LED_ONBOARD, level)] *)
Definition digitalWrite_onboard (level : bool) (s : Sketch) : Sketch :=
  set_led_onboard level s.

Definition LED_call (c : LedCall) (s : Sketch) : Sketch :=
  set_LED (LED s ++ [c]) s.

Definition usb_midi_send (m : Packet) (s : Sketch) : Sketch :=
  set_usb_midi (usb_midi s ++ [m]) s.

Definition Plug_send (m : Packet) (s : Sketch) : Sketch :=
  set_Plug (Plug s ++ [m]) s.

Definition Socket_send (m : Packet) (s : Sketch) : Sketch :=
  set_Socket (Socket s ++ [m]) s.

(** A [for (uint8_t i = 0; i < n; i++)] loop. *)
Definition for_loop (n : nat) (body : nat -> Sketch -> Sketch) (s : Sketch) : Sketch :=
  foldl (fun s i => body i s) s (seq 0 n).

(** ** class Device *)

Definition play (note velocity : Z) (s : Sketch) : Sketch :=
  if note <? C3 then s
  else
    let note := to_int8 (note - C3) in
    if Z.of_nat n_potis <=? note then s
    else
      let fraction := flt_div (flt_of_int velocity) (flt_of_int 127) in
      if 0 <? velocity then
        let s := digitalWrite_onboard true s in
        LED_call (LedSetHSV note 120 1 fraction) s
      else
        let s := digitalWrite_onboard false s in
        LED_call (LedSetBrightness note (flt_of_int 0)) s.

Definition handleReset (s : Sketch) : Sketch :=
  let s := digitalWrite_onboard false s in
  let s := LED_call LedReset s in
  let s := for_loop n_potis
             (fun i s => set_potis (<[i := poti_reset (_potis s !!! i)]> (_potis s)) s) s in
  let s := set_steps (replicate n_potis 0) s in
  let s := set_measure_usec 0 s in
  let '(now, s) := micros s in
  let s := set_events_usec now s in
  set_midi Packet_init s.

Definition handleSend (midi : Packet) (s : Sketch) : Sketch :=
  let s := usb_midi_send midi s in
  Plug_send midi s.

(** [V2Device::send] hands the packet to the [handleSend] override. *)
Definition send (midi : Packet) (s : Sketch) : Sketch := handleSend midi s.

(** The body of the loop of [sendEvents], for the channel [i]. *)
Definition sendEvents_channel (force : bool) (i : nat) (s : Sketch) : Sketch :=
  if negb force && (_steps s !!! i =? poti_getStep (_potis s !!! i)) then s
  else
    let s := LED_call (LedSetBrightness (Z.of_nat i) (poti_getFraction (_potis s !!! i))) s in
    let s := set_midi (setControlChange (config_channel s)
                         (GeneralPurpose1 + Z.of_nat i)
                         (poti_getStep (_potis s !!! i)) (_midi s)) s in
    let s := send (_midi s) s in
    set_steps (<[i := to_uint8 (poti_getStep (_potis s !!! i))]> (_steps s)) s.

Definition sendEvents (force : bool) (s : Sketch) : Sketch :=
  for_loop n_potis (sendEvents_channel force) s.

Definition allNotesOff (s : Sketch) : Sketch := sendEvents true s.

(** The first block of [handleLoop]: the sampling task. *)
Definition handleLoop_measure (s : Sketch) : Sketch :=
  let '(now, s) := micros s in
  if 10 * 1000 <? to_ulong (now - _measure_usec s) then
    let s := for_loop n_potis
               (fun i s =>
                  let raw := flt_div (flt_of_int (analogRead i s)) (flt_of_int 1023) in
                  set_potis (<[i := poti_measure raw (_potis s !!! i)]> (_potis s)) s) s in
    let '(now, s) := micros s in
    set_measure_usec now s
  else s.

(** The second block of [handleLoop]: the emission task. *)
Definition handleLoop_events (s : Sketch) : Sketch :=
  let '(now, s) := micros s in
  if 50 * 1000 <? to_ulong (now - _events_usec s) then
    let s := sendEvents false s in
    let '(now, s) := micros s in
    set_events_usec now s
  else s.

Definition handleLoop (s : Sketch) : Sketch :=
  handleLoop_events (handleLoop_measure s).

Definition handleNote (channel note velocity : Z) (s : Sketch) : Sketch :=
  play (to_int8 note) (to_int8 velocity) s.

Definition handleNoteOff (channel note velocity : Z) (s : Sketch) : Sketch :=
  play (to_int8 note) 0 s.

Definition handleControlChange (channel controller value : Z) (s : Sketch) : Sketch :=
  if (controller =? AllSoundOff) || (controller =? AllNotesOff)
  then allNotesOff s
  else s.

(** [V2Device::reset] runs the [handleReset] override. *)
Definition reset (s : Sketch) : Sketch := handleReset s.

Definition handleSystemReset (s : Sketch) : Sketch := reset s.



Definition importConfiguration (json : JsonObject) (s : Sketch) : Sketch :=
  match json_get "midi" json with
  | Some (JObj json_midi) =>
      match json_get "channel" json_midi with
      | Some v =>
          if isNull v then s
          else
            let channel := json_as_uint8 v in
            if channel <? 1 then set_config_channel 0 s
            else if 16 <? channel then set_config_channel 15 s
            else set_config_channel (to_uint8 (channel - 1)) s
      | None => s
      end
  | _ => s
  end.

Definition exportConfiguration (json : JsonObject) (s : Sketch) : JsonObject :=
  let json := json_set "#midi" (JStr "The MIDI settings") json in
  let json_midi := [] in
  let json_midi :=
    json_set "#channel" (JStr "The channel to send notes and control values to") json_midi in
  let json_midi := json_set "channel" (JInt (config_channel s + 1)) json_midi in
  let json_configuration := [] in
  let json_configuration := json_set "path" (JStr "midi") json_configuration in
  let json_configuration := json_set "field" (JStr "channel") json_configuration in
  let json_midi := json_set "configuration" (JObj json_configuration) json_midi in
  json_set "midi" (JObj json_midi) json.

(** [json.createNestedObject()] adds the object at the end of the array. *)
Definition exportSettings (json : JsonArray) : JsonArray :=
  let json_midi := [] in
  let json_midi := json_set "type" (JStr "midi") json_midi in
  let json_midi := json_set "channel" (JStr "midi.channel") json_midi in
  let json_configuration := [] in
  let json_configuration := json_set "path" (JStr "midi") json_configuration in
  let json_configuration := json_set "field" (JStr "channel") json_configuration in
  let json_midi := json_set "configuration" (JObj json_configuration) json_midi in
  json ++ [JObj json_midi].

Definition exportInput (json : JsonObject) : JsonObject :=
  let json_chromatic := [] in
  let json_chromatic := json_set "start" (JInt C3) json_chromatic in
  let json_chromatic := json_set "count" (JInt (Z.of_nat n_potis)) json_chromatic in
  json_set "chromatic" (JObj json_chromatic) json.

(** [sprintf(name, "Channel %d", i + 1)] in the loop of [exportOutput]. *)
Definition controller_name (i : nat) : string := "Channel " +:+ decimal (i + 1).

(** [char name[11]] *)
Definition controller_name_size : nat := 11.

(** The body of the loop of [exportOutput]: one more object in the array. *)
Definition exportOutput_controller (i : nat) (json_controllers : JsonArray) : JsonArray :=
  let name := controller_name i in
  let json_controller := [] in
  let json_controller := json_set "name" (JStr name) json_controller in
  let json_controller :=
    json_set "number" (JInt (GeneralPurpose1 + Z.of_nat i)) json_controller in
  json_controllers ++ [JObj json_controller].

(** [exportOutput] sets the member "channel" of [json], and the member
    "controllers" to the array that the loop fills; the result is the
    document, and beside it that array. *)
Definition exportOutput (json : JsonObject) (s : Sketch) : JsonObject * JsonArray :=
  let json := json_set "channel" (JInt (config_channel s)) json in
  let json_controllers :=
    foldl (fun arr i => exportOutput_controller i arr) [] (seq 0 n_potis) in
  let json := json_set "controllers" (JArr json_controllers) json in
  (json, json_controllers).

(** Modelled from the spec: [V2MIDI::Port::dispatch] is library code that is
    not part of the sketch; it hands a packet to the handler of its message
    kind (section 4.5), and the sketch overrides the handlers below. *)
Definition dispatch (midi : Packet) (s : Sketch) : Sketch :=
  match message midi with
  | NoteOn channel note velocity => handleNote channel note velocity s
  | NoteOff channel note velocity => handleNoteOff channel note velocity s
  | ControlChange channel controller value =>
      handleControlChange channel controller value s
  | SystemReset => handleSystemReset s
  | _ => s
  end.

(** ** class MIDI: packets from the USB host *)

(** [received] is what [Device.usb.midi.receive(&_midi)] delivers, if anything. *)
Definition MIDI_loop (received : option Packet) (s : Sketch) : Sketch :=
  match received with
  | None => s
  | Some m =>
      let s := set_MIDI_midi m s in
      if getPort (MIDI_midi s) =? 0 then dispatch (MIDI_midi s) s
      else
        let s := set_MIDI_midi (setPort (getPort (MIDI_midi s) - 1) (MIDI_midi s)) s in
        Socket_send (MIDI_midi s) s
  end.

(** ** class Link: packets from the parent and from the children *)

Definition receivePlug (packet : LinkPacket) (s : Sketch) : Sketch :=
  match getType packet with
  | LinkMIDI =>
      let s := set_Link_midi (payload packet) s in
      dispatch (Link_midi s) s
  | LinkOther => s
  end.

Definition receiveSocket (packet : LinkPacket) (s : Sketch) : Sketch :=
  match getType packet with
  | LinkMIDI =>
      let address := getAddress packet in
      if address =? 0x0f then s
      else if usb_connected s then
        let s := set_Link_midi (payload packet) s in
        let s := set_Link_midi (setPort (address + 1) (Link_midi s)) s in
        usb_midi_send (Link_midi s) s
      else s
  | LinkOther => s
  end.

(** ** A run of the sketch *)


End Sketch.

(** ** A concrete set of libraries

    Used to run the sketch on inputs: rational numbers stand for [float], a
    sampler that keeps the last fraction it was fed (no smoothing) and
    quantizes it to 128 steps, the note and controller numbers of MIDI, and
    a conversion to [uint8_t] that yields 0 for what does not fit. *)

Module Ref.

Definition as_uint8 (v : Json) : Z :=
  match v with
  | JInt z => if (0 <=? z) && (z <=? 255) then z else 0
  | _ => 0
  end.

Definition libraries : Libraries := {|
  flt := Q;
  flt_of_int := inject_Z;
  flt_div := Qdiv;
  Poti := Q;
  poti_new := 0%Q;
  poti_reset := fun _ => 0%Q;
  poti_measure := fun raw _ => raw;
  poti_getStep := fun p => Qfloor (p * 127);
  poti_getFraction := fun p => p;
  C3 := 60;
  GeneralPurpose1 := 16;
  AllSoundOff := 120;
  AllNotesOff := 123;
  json_as_uint8 := as_uint8
|}.



(** The state after power-up, before [Device.reset()], with the clock
    [time] and both inputs at the raw reading [raw]. *)
Definition power_up (time : nat -> Z) (raw : Z) : @Sketch libraries :=
  @mkSketch libraries 0 [0%Q; 0%Q] [0; 0] 0 0 Packet_init [] true [] [] [] false
    Packet_init Packet_init time 0%nat (fun _ => raw).

(** Channel 0 turned to the middle, channel 1 at rest, nothing sent yet. *)
Definition turned : @Sketch libraries :=
  @set_potis libraries [1 # 2; 0%Q] (power_up (fun _ => 0) 0).

(** The clock reads 20 ms, then 21 ms, 22 ms, ...; both references are 0. *)
Definition late : @Sketch libraries :=
  power_up (fun k => 20000 + 1000 * Z.of_nat k) 512.

(** The clock reads exactly 10 ms, the reference of the sampling task is 0. *)
Definition at10 : @Sketch libraries := power_up (fun _ => 10000) 512.

(** The clock reads exactly 50 ms, the reference of the emission task is 0,
    and channel 0 has been turned to the middle. *)
Definition at50 : @Sketch libraries :=
  @set_potis libraries [1 # 2; 0%Q] (power_up (fun _ => 50000) 512).


(** The clock reads 60 ms, then 61 ms, 62 ms, ...: both tasks are due. *)
Definition overdue : @Sketch libraries :=
  power_up (fun k => 60000 + 1000 * Z.of_nat k) 512.

(** The clock stays at 5 ms: no task is due. *)
Definition early : @Sketch libraries := power_up (fun _ => 5000) 512.

End Ref.

(** ** Vocabulary of the specification *)

Section Vocabulary.

Context `{L : Libraries}.

(** The quantized step the sampler of channel [i] reports. *)
Definition step_of (s : Sketch) (i : nat) : Z := poti_getStep (_potis s !!! i).

(** The fraction the sampler of channel [i] reports. *)
Definition fraction_of (s : Sketch) (i : nat) : flt := poti_getFraction (_potis s !!! i).

(** The control change message of channel [i]. *)
Definition cc_packet (s : Sketch) (i : nat) : Packet :=
  mkPacket (port (_midi s))
    (ControlChange (config_channel s) (GeneralPurpose1 + Z.of_nat i) (step_of s i)).

(** Whether a pass over the channels emits for channel [i]. *)
Definition emits (force : bool) (s : Sketch) (i : nat) : bool :=
  force || negb (_steps s !!! i =? step_of s i).

(** The packets a pass over the channels below [k] sends, in order. *)
Definition sent (force : bool) (s : Sketch) (k : nat) : list Packet :=
  flat_map (fun i => if emits force s i then [cc_packet s i] else []) (seq 0 k).

(** The calls a pass over the channels below [k] makes into [LED]. *)
Definition lit (force : bool) (s : Sketch) (k : nat) : list LedCall :=
  flat_map (fun i =>
              if emits force s i
              then [LedSetBrightness (Z.of_nat i) (fraction_of s i)] else [])
    (seq 0 k).

(** The array [_steps] after a pass over the channels below [k]. *)
Definition cached (force : bool) (s : Sketch) (k : nat) : list Z :=
  foldl (fun st i => if emits force s i then <[i := to_uint8 (step_of s i)]> st else st)
    (_steps s) (seq 0 k).

(** The state after a pass over the channels below [k]. *)
Definition sendEvents_result (force : bool) (s : Sketch) (k : nat) : Sketch :=
  mkSketch (config_channel s) (_potis s) (cached force s k)
    (_measure_usec s) (_events_usec s) (List.last (sent force s k) (_midi s))
    (usb_midi s ++ sent force s k) (usb_connected s) (LED s ++ lit force s k)
    (Plug s ++ sent force s k) (Socket s) (led_onboard s)
    (MIDI_midi s) (Link_midi s) (clock s) (clock_reads s) (analog s).

(** The control change messages that carry the controller of channel [i]. *)
Definition for_channel (i : nat) (m : Packet) : bool :=
  match message m with
  | ControlChange _ controller _ => controller =? GeneralPurpose1 + Z.of_nat i
  | _ => false
  end.

(** The calls into [LED] that address the indicator [i]. *)
Definition led_for (i : nat) (c : LedCall) : bool :=
  match c with
  | LedReset => false
  | LedSetHSV index _ _ _ => index =? Z.of_nat i
  | LedSetBrightness index _ => index =? Z.of_nat i
  | LedBegin => false
  | LedSetMaxBrightness _ => false
  end.


(** An array after [a[i] = f i a[i]] for every [i] below [k]. *)
Definition update_each {A} `{Inhabited A} (f : nat -> A -> A) (k : nat) (l : list A) : list A :=
  foldl (fun l i => <[i := f i (l !!! i)]> l) l (seq 0 k).

(** The raw fraction [analogRead(PIN_CHANNEL_SENSE + i) / 1023.f]. *)
Definition raw_fraction (s : Sketch) (i : nat) : flt :=
  flt_div (flt_of_int (analog s i)) (flt_of_int 1023).

End Vocabulary.

(** ** Properties *)

Section Properties.

Context `{L : Libraries}.

Lemma to_uint8_small (z : Z) : 0 <= z < 256 -> to_uint8 z = z.
Proof. intros Hz. unfold to_uint8. apply Z.mod_small. lia. Qed.

Lemma to_int8_small (z : Z) : -128 <= z < 128 -> to_int8 z = z.
Proof. intros Hz. unfold to_int8. rewrite Z.mod_small; lia. Qed.

Lemma to_int8_high (z : Z) : 128 <= z < 256 -> to_int8 z = z - 256.
Proof.
  intros Hz. unfold to_int8.
  replace (z + 128) with (z - 128 + 1 * 256) by lia.
  rewrite Z.mod_add by lia. rewrite Z.mod_small; lia.
Qed.

Lemma for_loop_S (n : nat) (body : nat -> Sketch -> Sketch) (s : Sketch) :
  for_loop (S n) body s = body n (for_loop n body s).
Proof. unfold for_loop. rewrite seq_S, foldl_snoc. reflexivity. Qed.

Lemma Sketch_eta (s : Sketch) :
  s = mkSketch (config_channel s) (_potis s) (_steps s) (_measure_usec s)
        (_events_usec s) (_midi s) (usb_midi s) (usb_connected s) (LED s)
        (Plug s) (Socket s) (led_onboard s) (MIDI_midi s) (Link_midi s)
        (clock s) (clock_reads s) (analog s).
Proof. destruct s; reflexivity. Qed.

(** *** The emission pass *)

Lemma sent_S force s k :
  sent force s (S k) =
  sent force s k ++ (if emits force s k then [cc_packet s k] else []).
Proof.
  unfold sent. rewrite seq_S, flat_map_app. simpl. rewrite app_nil_r. reflexivity.
Qed.

Lemma lit_S force s k :
  lit force s (S k) =
  lit force s k ++
  (if emits force s k then [LedSetBrightness (Z.of_nat k) (fraction_of s k)] else []).
Proof.
  unfold lit. rewrite seq_S, flat_map_app. simpl. rewrite app_nil_r. reflexivity.
Qed.

Lemma cached_S force s k :
  cached force s (S k) =
  if emits force s k then <[k := to_uint8 (step_of s k)]> (cached force s k)
  else cached force s k.
Proof. unfold cached. rewrite seq_S, foldl_snoc. reflexivity. Qed.

Lemma cached_length force s k : length (cached force s k) = length (_steps s).
Proof.
  induction k as [|k IH]; [reflexivity|].
  rewrite cached_S. destruct (emits force s k); [rewrite length_insert|]; exact IH.
Qed.

(** The channels the pass has not reached yet keep their cached step. *)
Lemma cached_ge force s k i : (k <= i)%nat -> cached force s k !!! i = _steps s !!! i.
Proof.
  induction k as [|k IH]; intros Hi; [reflexivity|].
  rewrite cached_S. destruct (emits force s k).
  - rewrite list_lookup_total_insert_ne by lia. apply IH. lia.
  - apply IH. lia.
Qed.

(** A channel the pass has reached holds the emitted step, or is untouched. *)
Lemma cached_lt force s k i :
  (i < k)%nat -> (i < length (_steps s))%nat ->
  cached force s k !!! i =
  if emits force s i then to_uint8 (step_of s i) else _steps s !!! i.
Proof.
  induction k as [|k IH]; intros Hi Hlen; [lia|].
  rewrite cached_S. destruct (decide (i = k)) as [->|Hne].
  - destruct (emits force s k).
    + apply list_lookup_total_insert_eq. rewrite cached_length. exact Hlen.
    + apply cached_ge. lia.
  - assert (Hlt : (i < k)%nat) by lia.
    destruct (emits force s k).
    + rewrite list_lookup_total_insert_ne by lia. apply IH; assumption.
    + apply IH; assumption.
Qed.

Lemma sent_port force s k m : In m (sent force s k) -> port m = port (_midi s).
Proof.
  unfold sent. rewrite in_flat_map. intros (i & _ & Hm).
  destruct (emits force s i); simpl in Hm; [|contradiction].
  destruct Hm as [<-|[]]. reflexivity.
Qed.

Lemma last_sent_port force s k :
  port (List.last (sent force s k) (_midi s)) = port (_midi s).
Proof.
  destruct (sent force s k) as [|m l] eqn:E; [reflexivity|].
  apply (sent_port force s k). rewrite E.
  destruct (exists_last (l := m :: l)) as (l' & x & Hx); [discriminate|].
  rewrite Hx, last_last. apply in_or_app. right. left. reflexivity.
Qed.

(** One iteration of the loop of [sendEvents], field by field. *)
Lemma sendEvents_channel_eq force i s :
  sendEvents_channel force i s =
  if emits force s i then
    mkSketch (config_channel s) (_potis s)
      (<[i := to_uint8 (step_of s i)]> (_steps s))
      (_measure_usec s) (_events_usec s)
      (mkPacket (port (_midi s))
         (ControlChange (config_channel s) (GeneralPurpose1 + Z.of_nat i) (step_of s i)))
      (usb_midi s ++
       [mkPacket (port (_midi s))
          (ControlChange (config_channel s) (GeneralPurpose1 + Z.of_nat i) (step_of s i))])
      (usb_connected s)
      (LED s ++ [LedSetBrightness (Z.of_nat i) (fraction_of s i)])
      (Plug s ++
       [mkPacket (port (_midi s))
          (ControlChange (config_channel s) (GeneralPurpose1 + Z.of_nat i) (step_of s i))])
      (Socket s) (led_onboard s) (MIDI_midi s) (Link_midi s)
      (clock s) (clock_reads s) (analog s)
  else s.
Proof.
  unfold sendEvents_channel, emits, step_of, fraction_of.
  destruct force; cbn [negb andb orb]; [reflexivity|].
  destruct (_steps s !!! i =? poti_getStep (_potis s !!! i)); reflexivity.
Qed.

Lemma emits_cached force s k :
  emits force (sendEvents_result force s k) k = emits force s k.
Proof.
  unfold emits, step_of. cbn [sendEvents_result _steps _potis].
  rewrite cached_ge by lia. reflexivity.
Qed.

(** The loop of [sendEvents], run over the channels below [k]. *)
Lemma sendEvents_loop force s k :
  for_loop k (sendEvents_channel force) s = sendEvents_result force s k.
Proof.
  induction k as [|k IH].
  - unfold for_loop, sendEvents_result, sent, lit, cached. simpl.
    rewrite !app_nil_r. apply Sketch_eta.
  - rewrite for_loop_S, IH, sendEvents_channel_eq, emits_cached.
    unfold sendEvents_result, step_of, fraction_of.
    cbn [config_channel _potis _steps _measure_usec _events_usec
           _midi usb_midi usb_connected LED Plug Socket led_onboard MIDI_midi
           Link_midi clock clock_reads analog].
    rewrite sent_S, lit_S, cached_S.
    destruct (emits force s k).
    + unfold step_of, fraction_of, cc_packet.
      rewrite last_sent_port, last_last, <- !app_assoc. reflexivity.
    + rewrite !app_nil_r. reflexivity.
Qed.

Lemma sendEvents_eq force s :
  sendEvents force s = sendEvents_result force s n_potis.
Proof. apply sendEvents_loop. Qed.

Lemma for_channel_cc_packet s i j :
  for_channel i (cc_packet s j) = bool_decide (j = i).
Proof.
  unfold for_channel, cc_packet. cbn [message].
  case_bool_decide as Hij.
  - subst. apply Z.eqb_refl.
  - apply Z.eqb_neq. lia.
Qed.

(** Of the packets of a pass, those of channel [i]. *)
Lemma filter_sent force s k i :
  List.filter (for_channel i) (sent force s k) =
  if (i <? k)%nat then (if emits force s i then [cc_packet s i] else []) else [].
Proof.
  induction k as [|k IH]; [reflexivity|].
  rewrite sent_S, List.filter_app, IH.
  assert (Hk : List.filter (for_channel i)
                 (if emits force s k then [cc_packet s k] else []) =
               if bool_decide (k = i)
               then (if emits force s i then [cc_packet s i] else []) else []).
  { case_bool_decide as Hki.
    - subst. destruct (emits force s i); [|reflexivity].
      cbn [List.filter]. rewrite for_channel_cc_packet, bool_decide_eq_true_2; reflexivity.
    - destruct (emits force s k); [|reflexivity].
      cbn [List.filter]. rewrite for_channel_cc_packet, bool_decide_eq_false_2; [reflexivity|assumption]. }
  rewrite Hk.
  destruct (Nat.ltb_spec i k), (Nat.ltb_spec i (S k)); try lia.
  - rewrite bool_decide_eq_false_2 by lia. apply app_nil_r.
  - case_bool_decide; [reflexivity|lia].
  - rewrite bool_decide_eq_false_2 by lia. reflexivity.
Qed.

(** Of the calls into [LED] of a pass, those for the indicator [i]. *)
Lemma filter_lit force s k i :
  List.filter (led_for i) (lit force s k) =
  if (i <? k)%nat
  then (if emits force s i then [LedSetBrightness (Z.of_nat i) (fraction_of s i)] else [])
  else [].
Proof.
  induction k as [|k IH]; [reflexivity|].
  rewrite lit_S, List.filter_app, IH.
  assert (Hk : List.filter (led_for i)
                 (if emits force s k
                  then [LedSetBrightness (Z.of_nat k) (fraction_of s k)] else []) =
               if bool_decide (k = i)
               then (if emits force s i
                     then [LedSetBrightness (Z.of_nat i) (fraction_of s i)] else [])
               else []).
  { case_bool_decide as Hki.
    - subst. destruct (emits force s i); [|reflexivity].
      cbn. rewrite Z.eqb_refl. reflexivity.
    - destruct (emits force s k); [|reflexivity].
      cbn. destruct (Z.eqb_spec (Z.of_nat k) (Z.of_nat i)); [lia|reflexivity]. }
  rewrite Hk.
  destruct (Nat.ltb_spec i k), (Nat.ltb_spec i (S k)); try lia.
  - rewrite bool_decide_eq_false_2 by lia. apply app_nil_r.
  - case_bool_decide; [reflexivity|lia].
  - rewrite bool_decide_eq_false_2 by lia. reflexivity.
Qed.

(** C1. One pass of [sendEvents] without the force flag, seen from the
    channel [i]: the pass appends the same packets to the USB port and to
    the plug, and calls to the LED driver.  If the step of the sampler
    differs from the cached step of [i], exactly one of the packets is for
    [i], the control change of controller [GeneralPurpose1 + i] with the
    step as its value on the configured channel; exactly one LED call is
    for [i], setting its brightness to the fraction of the sampler; and the
    cached step becomes the step sent.  If the two steps are equal there is
    no packet and no LED call for [i], and the cached step stays. *)
Theorem sendEvents_emits_on_change (s : Sketch) (i : nat) :
  length (_steps s) = n_potis ->
  (i < n_potis)%nat ->
  0 <= step_of s i < 256 ->
  exists (out : list Packet) (calls : list LedCall),
    usb_midi (sendEvents false s) = usb_midi s ++ out /\
    Plug (sendEvents false s) = Plug s ++ out /\
    LED (sendEvents false s) = LED s ++ calls /\
    (_steps s !!! i <> step_of s i ->
       List.filter (for_channel i) out =
         [mkPacket (port (_midi s))
            (ControlChange (config_channel s) (GeneralPurpose1 + Z.of_nat i)
               (step_of s i))] /\
       List.filter (led_for i) calls =
         [LedSetBrightness (Z.of_nat i) (fraction_of s i)] /\
       _steps (sendEvents false s) !!! i = step_of s i) /\
    (_steps s !!! i = step_of s i ->
       List.filter (for_channel i) out = [] /\
       List.filter (led_for i) calls = [] /\
       _steps (sendEvents false s) !!! i = _steps s !!! i).
Proof.
  intros Hlen Hi Hstep.
  exists (sent false s n_potis), (lit false s n_potis).
  rewrite sendEvents_eq. cbn [sendEvents_result usb_midi Plug LED _steps].
  rewrite filter_sent, filter_lit, cached_lt by lia.
  apply Nat.ltb_lt in Hi. rewrite Hi.
  unfold emits. cbn [orb].
  repeat split; try reflexivity.
  - destruct (Z.eqb_spec (_steps s !!! i) (step_of s i)); [contradiction|reflexivity].
  - destruct (Z.eqb_spec (_steps s !!! i) (step_of s i)); [contradiction|reflexivity].
  - destruct (Z.eqb_spec (_steps s !!! i) (step_of s i)); [contradiction|].
    apply to_uint8_small. assumption.
  - destruct (Z.eqb_spec (_steps s !!! i) (step_of s i)); [reflexivity|contradiction].
  - destruct (Z.eqb_spec (_steps s !!! i) (step_of s i)); [reflexivity|contradiction].
  - destruct (Z.eqb_spec (_steps s !!! i) (step_of s i)); [reflexivity|contradiction].
Qed.

(** *** Loops over the samplers *)

Lemma update_each_S {A} `{Inhabited A} (f : nat -> A -> A) k (l : list A) :
  update_each f (S k) l =
  <[k := f k (update_each f k l !!! k)]> (update_each f k l).
Proof. unfold update_each. rewrite seq_S, foldl_snoc. reflexivity. Qed.

Lemma update_each_length {A} `{Inhabited A} (f : nat -> A -> A) k (l : list A) :
  length (update_each f k l) = length l.
Proof.
  induction k as [|k IH]; [reflexivity|].
  rewrite update_each_S, length_insert. exact IH.
Qed.

Lemma update_each_lookup {A} `{Inhabited A} (f : nat -> A -> A) k (l : list A) i :
  update_each f k l !! i = if (i <? k)%nat then f i <$> l !! i else l !! i.
Proof.
  induction k as [|k IH] in i |- *; [reflexivity|].
  rewrite update_each_S.
  destruct (decide (i = k)) as [->|Hne].
  - rewrite (proj2 (Nat.ltb_lt k (S k))) by lia.
    pose proof (IH k) as Hk. rewrite Nat.ltb_irrefl in Hk.
    destruct (l !! k) as [x|] eqn:Hl.
    + rewrite list_lookup_insert_eq.
      * rewrite (list_lookup_total_correct _ _ _ Hk). reflexivity.
      * apply lookup_lt_Some in Hk. exact Hk.
    + rewrite list_insert_ge; [exact Hk|].
      apply lookup_ge_None. exact Hk.
  - rewrite list_lookup_insert_ne by congruence. rewrite IH.
    destruct (Nat.ltb_spec i k), (Nat.ltb_spec i (S k)); try lia; reflexivity.
Qed.

(** When the loop covers the array, every element is updated once. *)
Lemma update_each_imap {A} `{Inhabited A} (f : nat -> A -> A) k (l : list A) :
  (length l <= k)%nat -> update_each f k l = imap f l.
Proof.
  intros Hlen. apply list_eq. intros i.
  rewrite update_each_lookup, list_lookup_imap.
  destruct (Nat.ltb_spec i k) as [Hi|Hi].
  - destruct (l !! i); reflexivity.
  - rewrite (proj2 (lookup_ge_None l i)) by lia. reflexivity.
Qed.

(** A loop that replaces [_potis[i]] by [g i _potis[i]] for every channel. *)
Lemma potis_loop (g : Sketch -> nat -> Poti -> Poti) k s :
  (forall v s' i, g (set_potis v s') i = g s' i) ->
  for_loop k (fun i s => set_potis (<[i := g s i (_potis s !!! i)]> (_potis s)) s) s =
  set_potis (update_each (g s) k (_potis s)) s.
Proof.
  intros Hg. induction k as [|k IH].
  - unfold for_loop, update_each, set_potis. simpl. apply Sketch_eta.
  - rewrite for_loop_S, IH, update_each_S, Hg. reflexivity.
Qed.

(** *** Reset *)

Lemma handleReset_eq s :
  handleReset s =
  mkSketch (config_channel s)
    (update_each (fun _ => poti_reset) n_potis (_potis s))
    (replicate n_potis 0) 0 (to_ulong (clock s (clock_reads s))) Packet_init
    (usb_midi s) (usb_connected s) (LED s ++ [LedReset]) (Plug s) (Socket s) false
    (MIDI_midi s) (Link_midi s) (clock s) (S (clock_reads s)) (analog s).
Proof.
  unfold handleReset.
  rewrite (potis_loop (fun _ _ => poti_reset)) by reflexivity.
  reflexivity.
Qed.

(** *** The two periodic tasks *)

Lemma handleLoop_measure_eq s :
  handleLoop_measure s =
  if 10 * 1000 <? to_ulong (to_ulong (clock s (clock_reads s)) - _measure_usec s) then
    set_measure_usec (to_ulong (clock s (S (clock_reads s))))
      (set_clock_reads (S (S (clock_reads s)))
         (set_potis
            (update_each (fun i => poti_measure (raw_fraction s i)) n_potis (_potis s)) s))
  else set_clock_reads (S (clock_reads s)) s.
Proof.
  unfold handleLoop_measure, micros.
  cbn [_measure_usec set_clock_reads].
  destruct (10 * 1000 <? _) eqn:E; [|reflexivity].
  rewrite (potis_loop
             (fun s i => poti_measure (flt_div (flt_of_int (analogRead i s)) (flt_of_int 1023))))
    by reflexivity.
  reflexivity.
Qed.

Lemma handleLoop_events_eq s :
  handleLoop_events s =
  if 50 * 1000 <? to_ulong (to_ulong (clock s (clock_reads s)) - _events_usec s) then
    set_events_usec (to_ulong (clock s (S (clock_reads s))))
      (set_clock_reads (S (S (clock_reads s))) (sendEvents false s))
  else set_clock_reads (S (clock_reads s)) s.
Proof.
  unfold handleLoop_events, micros.
  cbn [_events_usec set_clock_reads].
  destruct (50 * 1000 <? _) eqn:E; [|reflexivity].
  rewrite !sendEvents_eq. reflexivity.
Qed.

(** C8, as the code has it. A system reset, from any state with both
    samplers in place: every cached step is 0, the reference of the sampling
    timer is 0, the reference of the emission timer is the time read from
    the clock, the packet buffer of the device (in which it builds the
    control changes it sends) is the initial packet, every sampler is reset,
    the onboard LED is off (and the LED driver is reset); the handler of the
    system reset message does exactly this.  The buffers that hold the last
    packet received, of [MIDI] and of [Link], are left as they are.  With
    the reference 0 the next iteration of the loop samples exactly when the
    clock reads more than 10 ms. *)
Theorem handleReset_restores_initial_state (s : Sketch) :
  length (_potis s) = n_potis ->
  _steps (handleReset s) = replicate n_potis 0 /\
  (forall i, (i < n_potis)%nat -> _steps (handleReset s) !! i = Some 0) /\
  _measure_usec (handleReset s) = 0 /\
  _events_usec (handleReset s) = to_ulong (clock s (clock_reads s)) /\
  _midi (handleReset s) = Packet_init /\
  _potis (handleReset s) = poti_reset <$> _potis s /\
  led_onboard (handleReset s) = false /\
  LED (handleReset s) = LED s ++ [LedReset] /\
  handleSystemReset s = handleReset s /\
  MIDI_midi (handleReset s) = MIDI_midi s /\
  Link_midi (handleReset s) = Link_midi s /\
  (10 * 1000 < to_ulong (clock s (S (clock_reads s))) ->
     _potis (handleLoop_measure (handleReset s)) =
       imap (fun i p => poti_measure (raw_fraction s i) (poti_reset p)) (_potis s)) /\
  (to_ulong (clock s (S (clock_reads s))) <= 10 * 1000 ->
     _potis (handleLoop_measure (handleReset s)) = poti_reset <$> _potis s).
Proof.
  intros Hlen.
  assert (Hnext :
    (10 * 1000 < to_ulong (clock s (S (clock_reads s))) ->
       _potis (handleLoop_measure (handleReset s)) =
         imap (fun i p => poti_measure (raw_fraction s i) (poti_reset p)) (_potis s)) /\
    (to_ulong (clock s (S (clock_reads s))) <= 10 * 1000 ->
       _potis (handleLoop_measure (handleReset s)) = poti_reset <$> _potis s)).
  { rewrite handleLoop_measure_eq, handleReset_eq.
    cbn [clock clock_reads _measure_usec _potis].
    assert (Hid : forall z, to_ulong (to_ulong z - 0) = to_ulong z)
      by (intros z; unfold to_ulong; rewrite Z.sub_0_r; apply Z.mod_mod; lia).
    rewrite Hid. split.
    - intros Hdue. apply Z.ltb_lt in Hdue. rewrite Hdue.
      cbn [set_measure_usec set_clock_reads set_potis _potis].
      rewrite !update_each_imap by (rewrite ?update_each_length, ?length_imap; lia).
      unfold raw_fraction. cbn [analog].
      apply list_eq. intros i. rewrite !list_lookup_imap.
      destruct (_potis s !! i); reflexivity.
    - intros Hnot. apply Z.ltb_ge in Hnot. rewrite Hnot.
      cbn [set_clock_reads _potis]. rewrite update_each_imap by lia.
      apply list_eq. intros i. rewrite list_lookup_imap, list_lookup_fmap. reflexivity. }
  rewrite handleReset_eq.
  cbn [_steps _measure_usec _events_usec _midi _potis led_onboard LED MIDI_midi Link_midi].
  repeat apply conj; try reflexivity; try apply Hnext.
  - intros i Hi. apply lookup_replicate_2. exact Hi.
  - rewrite update_each_imap by lia.
    apply list_eq. intros i. rewrite list_lookup_imap, list_lookup_fmap. reflexivity.
Qed.

(** The unsigned difference is the time that passed, also when the clock
    wrapped in between. *)
Lemma to_ulong_elapsed (ref d : Z) :
  0 <= d < 2 ^ 32 -> to_ulong (to_ulong (ref + d) - ref) = d.
Proof.
  intros Hd. unfold to_ulong.
  rewrite Zminus_mod_idemp_l.
  replace (ref + d - ref) with d by lia.
  apply Z.mod_small. exact Hd.
Qed.

(** C5, as the code has it. In an iteration of the loop the sampling task
    runs exactly when the unsigned, wrap-around safe time since its
    reference is more than 10 ms (10000 us), and the emission task exactly
    when it is more than 50 ms: a task that runs feeds every sampler once
    (runs one emission pass) and takes the time read from the clock as its
    new reference, a task that does not run changes nothing but the count of
    clock reads.  A task that ran, however long overdue, does not run again
    at a check that comes no more than its period after the new reference. *)
Theorem handleLoop_runs_tasks_when_overdue (s : Sketch) :
  length (_potis s) = n_potis ->
  (10 * 1000 < to_ulong (to_ulong (clock s (clock_reads s)) - _measure_usec s) ->
     handleLoop_measure s =
       set_measure_usec (to_ulong (clock s (S (clock_reads s))))
         (set_clock_reads (S (S (clock_reads s)))
            (set_potis (imap (fun i => poti_measure (raw_fraction s i)) (_potis s)) s)) /\
     (to_ulong (to_ulong (clock s (S (S (clock_reads s)))) -
                to_ulong (clock s (S (clock_reads s)))) <= 10 * 1000 ->
      handleLoop_measure (handleLoop_measure s) =
        set_clock_reads (S (S (S (clock_reads s)))) (handleLoop_measure s))) /\
  (to_ulong (to_ulong (clock s (clock_reads s)) - _measure_usec s) <= 10 * 1000 ->
     handleLoop_measure s = set_clock_reads (S (clock_reads s)) s) /\
  (50 * 1000 < to_ulong (to_ulong (clock s (clock_reads s)) - _events_usec s) ->
     handleLoop_events s =
       set_events_usec (to_ulong (clock s (S (clock_reads s))))
         (set_clock_reads (S (S (clock_reads s))) (sendEvents false s)) /\
     (to_ulong (to_ulong (clock s (S (S (clock_reads s)))) -
                to_ulong (clock s (S (clock_reads s)))) <= 50 * 1000 ->
      handleLoop_events (handleLoop_events s) =
        set_clock_reads (S (S (S (clock_reads s)))) (handleLoop_events s))) /\
  (to_ulong (to_ulong (clock s (clock_reads s)) - _events_usec s) <= 50 * 1000 ->
     handleLoop_events s = set_clock_reads (S (clock_reads s)) s) /\
  handleLoop s = handleLoop_events (handleLoop_measure s) /\
  (forall ref d, 0 <= d < 2 ^ 32 -> to_ulong (to_ulong (ref + d) - ref) = d).
Proof.
  intros Hlen. repeat apply conj.
  - intros Hdue. apply Z.ltb_lt in Hdue.
    assert (Hrun : handleLoop_measure s =
       set_measure_usec (to_ulong (clock s (S (clock_reads s))))
         (set_clock_reads (S (S (clock_reads s)))
            (set_potis (imap (fun i => poti_measure (raw_fraction s i)) (_potis s)) s))).
    { rewrite handleLoop_measure_eq, Hdue, update_each_imap by lia. reflexivity. }
    split; [exact Hrun|].
    intros Hnext. apply Z.ltb_ge in Hnext.
    rewrite Hrun at 1. rewrite handleLoop_measure_eq.
    cbn [set_measure_usec set_clock_reads set_potis clock clock_reads _measure_usec].
    rewrite Hnext, Hrun. reflexivity.
  - intros Hnot. apply Z.ltb_ge in Hnot.
    rewrite handleLoop_measure_eq, Hnot. reflexivity.
  - intros Hdue. apply Z.ltb_lt in Hdue.
    assert (Hrun : handleLoop_events s =
       set_events_usec (to_ulong (clock s (S (clock_reads s))))
         (set_clock_reads (S (S (clock_reads s))) (sendEvents false s))).
    { rewrite handleLoop_events_eq, Hdue. reflexivity. }
    split; [exact Hrun|].
    intros Hnext. apply Z.ltb_ge in Hnext.
    rewrite Hrun at 1. rewrite handleLoop_events_eq, sendEvents_eq.
    cbn [set_events_usec set_clock_reads sendEvents_result clock clock_reads _events_usec].
    rewrite Hnext, Hrun, sendEvents_eq. reflexivity.
  - intros Hnot. apply Z.ltb_ge in Hnot.
    rewrite handleLoop_events_eq, Hnot. reflexivity.
  - reflexivity.
  - apply to_ulong_elapsed.
Qed.

(** *** Notes *)












(** X14. A velocity byte above 127 reaches [play] as a negative [int8_t]:
    the note in the window then switches the indicator and the onboard LED
    off, like a note off. *)
Lemma handleNote_velocity_high (channel note velocity : Z) (s : Sketch) :
  0 <= C3 -> C3 + Z.of_nat n_potis <= 128 ->
  C3 <= note < C3 + Z.of_nat n_potis ->
  128 <= velocity < 256 ->
  handleNote channel note velocity s =
    set_LED (LED s ++ [LedSetBrightness (note - C3) (flt_of_int 0)])
      (set_led_onboard false s).
Proof.
  intros HC3 Hwin Hin Hvel. unfold handleNote, play.
  change (Z.of_nat n_potis) with 2 in *.
  rewrite (to_int8_small note), (to_int8_high velocity) by lia.
  rewrite (proj2 (Z.ltb_ge note C3)) by lia.
  rewrite (to_int8_small (note - C3)) by lia.
  rewrite (proj2 (Z.leb_gt 2 (note - C3))) by lia.
  rewrite (proj2 (Z.ltb_ge 0 (velocity - 256))) by lia.
  reflexivity.
Qed.

(** *** Control changes *)

Lemma sent_forced s k : sent true s k = cc_packet s <$> seq 0 k.
Proof.
  induction k as [|k IH]; [reflexivity|].
  rewrite sent_S, IH, seq_S, fmap_app. reflexivity.
Qed.

(** C6. The control changes all sound off and all notes off run a forced
    emission pass: it sends, to the USB port and to the plug, exactly
    [n_potis] = 2 packets, the i-th being the control change of channel
    [i] with the step its sampler reports, whatever the cached steps are. *)
Theorem handleControlChange_forced_flush (channel controller value : Z) (s : Sketch) :
  controller = AllSoundOff \/ controller = AllNotesOff ->
  exists out : list Packet,
    usb_midi (handleControlChange channel controller value s) = usb_midi s ++ out /\
    Plug (handleControlChange channel controller value s) = Plug s ++ out /\
    length out = n_potis /\
    n_potis = 2%nat /\
    forall i, (i < n_potis)%nat ->
      out !! i =
        Some (mkPacket (port (_midi s))
                (ControlChange (config_channel s) (GeneralPurpose1 + Z.of_nat i)
                   (poti_getStep (_potis s !!! i)))).
Proof.
  intros Hc. exists (sent true s n_potis).
  assert (Hflush : handleControlChange channel controller value s = sendEvents true s).
  { unfold handleControlChange, allNotesOff.
    destruct Hc as [->| ->]; rewrite Z.eqb_refl, ?orb_true_r; reflexivity. }
  rewrite Hflush, sendEvents_eq. cbn [sendEvents_result usb_midi Plug].
  rewrite sent_forced.
  repeat apply conj; [reflexivity|reflexivity| |reflexivity|].
  - rewrite length_fmap. apply length_seq.
  - intros i Hi. rewrite list_lookup_fmap, lookup_seq_lt by exact Hi. reflexivity.
Qed.

(** C10. A control change with any other controller leaves the whole
    state as it is: nothing is sent and nothing is stored. *)
Theorem handleControlChange_other_controller (channel controller value : Z) (s : Sketch) :
  controller <> AllSoundOff ->
  controller <> AllNotesOff ->
  handleControlChange channel controller value s = s.
Proof.
  intros H1 H2. unfold handleControlChange.
  apply Z.eqb_neq in H1, H2. rewrite H1, H2. reflexivity.
Qed.

(** *** The dispatchers *)

Lemma play_Socket note velocity s : Socket (play note velocity s) = Socket s.
Proof.
  unfold play.
  destruct (note <? C3); [reflexivity|].
  destruct (Z.of_nat n_potis <=? to_int8 (note - C3)); [reflexivity|].
  destruct (0 <? velocity); reflexivity.
Qed.

(** No handler of the device sends to the socket. *)
Lemma dispatch_Socket m s : Socket (dispatch m s) = Socket s.
Proof.
  unfold dispatch. destruct (message m).
  - reflexivity.
  - apply play_Socket.
  - apply play_Socket.
  - unfold handleControlChange, allNotesOff.
    destruct (_ || _); [|reflexivity].
    rewrite sendEvents_eq. reflexivity.
  - unfold handleSystemReset, reset. rewrite handleReset_eq. reflexivity.
  - reflexivity.
Qed.

(** C2. A packet received from the USB host.  With port 0 the loop hands
    it to the dispatcher of the device, once, and the log of the socket
    stays as it was.  With another port the loop does not dispatch: the
    only changes are the buffer of the loop and the log of the socket, which
    gets the packet with the port decreased by one. *)
Theorem MIDI_loop_routes_by_port (m : Packet) (s : Sketch) :
  (getPort m = 0 ->
     MIDI_loop (Some m) s = dispatch m (set_MIDI_midi m s) /\
     Socket (MIDI_loop (Some m) s) = Socket s) /\
  (getPort m <> 0 ->
     MIDI_loop (Some m) s =
       set_Socket (Socket s ++ [mkPacket (getPort m - 1) (message m)])
         (set_MIDI_midi (mkPacket (getPort m - 1) (message m)) s)).
Proof.
  unfold MIDI_loop. cbn [MIDI_midi set_MIDI_midi]. split.
  - intros Hport. rewrite Hport. cbn [Z.eqb].
    split; [reflexivity|]. rewrite dispatch_Socket. reflexivity.
  - intros Hport. apply Z.eqb_neq in Hport. rewrite Hport. reflexivity.
Qed.

(** C3. A MIDI packet received from the socket.  With the address 0x0f
    nothing changes.  With another address and a host connected to the USB
    port, the packet goes to the USB port with the address plus one as its
    port (the only other change is the buffer of the link); without a host
    nothing changes. *)
Theorem receiveSocket_forwards_to_host (packet : LinkPacket) (s : Sketch) :
  getType packet = LinkMIDI ->
  (getAddress packet = 0x0f -> receiveSocket packet s = s) /\
  (getAddress packet <> 0x0f ->
     (usb_connected s = true ->
        receiveSocket packet s =
          set_usb_midi
            (usb_midi s ++ [mkPacket (getAddress packet + 1) (message (payload packet))])
            (set_Link_midi
               (mkPacket (getAddress packet + 1) (message (payload packet))) s)) /\
     (usb_connected s = false -> receiveSocket packet s = s)).
Proof.
  intros Htype. unfold receiveSocket. rewrite Htype. split.
  - intros ->. reflexivity.
  - intros Haddr. apply Z.eqb_neq in Haddr. rewrite Haddr.
    split; intros ->; reflexivity.
Qed.

(** *** Configuration *)

Lemma json_get_set_eq key v (o : JsonObject) :
  json_get key (json_set key v o) = Some v.
Proof.
  induction o as [|[k w] o IH]; simpl.
  - rewrite String.eqb_refl. reflexivity.
  - destruct (String.eqb k key) eqn:E; simpl; rewrite E; [reflexivity|exact IH].
Qed.

Lemma exportConfiguration_channel json s :
  exists json_midi,
    json_get "midi" (exportConfiguration json s) = Some (JObj json_midi) /\
    json_get "channel" json_midi = Some (JInt (config_channel s + 1)).
Proof.
  eexists. unfold exportConfiguration. split.
  - apply json_get_set_eq.
  - reflexivity.
Qed.


(** C9. Export, then import.  The exported document holds the stored
    channel plus one; for a stored channel in 0..15, and a conversion to
    [uint8_t] that returns the integers that fit, importing the document
    stores the same channel again, and gives the state back when it is
    imported into the state it was exported from. *)
Theorem export_then_import_channel (json : JsonObject) (s s' : Sketch) :
  0 <= config_channel s <= 15 ->
  (forall z, 0 <= z <= 255 -> json_as_uint8 (JInt z) = z) ->
  (exists json_midi,
     json_get "midi" (exportConfiguration json s) = Some (JObj json_midi) /\
     json_get "channel" json_midi = Some (JInt (config_channel s + 1))) /\
  config_channel (importConfiguration (exportConfiguration json s) s') = config_channel s /\
  importConfiguration (exportConfiguration json s) s = s.
Proof.
  intros Hrange Hconv.
  split; [apply exportConfiguration_channel|].
  destruct (exportConfiguration_channel json s) as (json_midi & Hmidi & Hchannel).
  assert (Himport : forall t,
    importConfiguration (exportConfiguration json s) t =
    set_config_channel (config_channel s) t).
  { intros t. unfold importConfiguration. rewrite Hmidi, Hchannel.
    cbn [isNull]. rewrite Hconv by lia.
    rewrite (proj2 (Z.ltb_ge (config_channel s + 1) 1)) by lia.
    rewrite (proj2 (Z.ltb_ge 16 (config_channel s + 1))) by lia.
    rewrite to_uint8_small by lia. f_equal. lia. }
  rewrite !Himport. split; [reflexivity|].
  symmetry. apply Sketch_eta.
Qed.

(** *** More on the emission pass *)

Lemma sent_quiet force s k :
  (forall i, (i < k)%nat -> emits force s i = false) -> sent force s k = [].
Proof.
  induction k as [|k IH]; intros Hq; [reflexivity|].
  rewrite sent_S, IH, Hq by (lia || (intros; apply Hq; lia)). reflexivity.
Qed.

Lemma lit_quiet force s k :
  (forall i, (i < k)%nat -> emits force s i = false) -> lit force s k = [].
Proof.
  induction k as [|k IH]; intros Hq; [reflexivity|].
  rewrite lit_S, IH, Hq by (lia || (intros; apply Hq; lia)). reflexivity.
Qed.

Lemma cached_quiet force s k :
  (forall i, (i < k)%nat -> emits force s i = false) -> cached force s k = _steps s.
Proof.
  induction k as [|k IH]; intros Hq; [reflexivity|].
  rewrite cached_S, IH, Hq by (lia || (intros; apply Hq; lia)). reflexivity.
Qed.

(** A pass that emits for no channel gives the state back. *)
Lemma sendEvents_result_quiet force s k :
  (forall i, (i < k)%nat -> emits force s i = false) -> sendEvents_result force s k = s.
Proof.
  intros Hq. unfold sendEvents_result.
  rewrite sent_quiet, lit_quiet, cached_quiet by exact Hq.
  cbn [List.last]. rewrite !app_nil_r. symmetry. apply Sketch_eta.
Qed.

(** After a pass the cache of every channel it covered holds the step of
    the sampler. *)
Lemma cached_in_sync force s k i :
  (i < k)%nat -> (i < length (_steps s))%nat -> 0 <= step_of s i < 256 ->
  cached force s k !!! i = step_of s i.
Proof.
  intros Hi Hlen Hstep. rewrite cached_lt by assumption.
  unfold emits. destruct force; cbn [orb].
  - apply to_uint8_small. exact Hstep.
  - destruct (Z.eqb_spec (_steps s !!! i) (step_of s i)) as [Heq|Hne]; cbn [negb].
    + exact Heq.
    + apply to_uint8_small. exact Hstep.
Qed.

Lemma emits_after_pass force s i :
  (i < n_potis)%nat -> length (_steps s) = n_potis -> 0 <= step_of s i < 256 ->
  emits false (sendEvents_result force s n_potis) i = false.
Proof.
  intros Hi Hlen Hstep. unfold emits, step_of.
  cbn [sendEvents_result _steps _potis orb].
  fold (step_of s i). rewrite cached_in_sync by (assumption || lia).
  rewrite Z.eqb_refl. reflexivity.
Qed.

(** X1. After an emission pass, forced or not, the cached step of every
    channel is the step its sampler reports. *)
Theorem sendEvents_cache_in_sync (force : bool) (s : Sketch) (i : nat) :
  length (_steps s) = n_potis ->
  (i < n_potis)%nat ->
  0 <= step_of s i < 256 ->
  _steps (sendEvents force s) !!! i = step_of (sendEvents force s) i /\
  step_of (sendEvents force s) i = step_of s i.
Proof.
  intros Hlen Hi Hstep. rewrite sendEvents_eq. unfold step_of at 1 2.
  cbn [sendEvents_result _steps _potis]. fold (step_of s i).
  split; [|reflexivity]. apply cached_in_sync; assumption || lia.
Qed.

(** X2. Change coalescing: an emission pass that follows another pass,
    with no sample taken in between, sends nothing and changes nothing. *)
Theorem sendEvents_second_pass_silent (force : bool) (s : Sketch) :
  length (_steps s) = n_potis ->
  (forall i, (i < n_potis)%nat -> 0 <= step_of s i < 256) ->
  sendEvents false (sendEvents force s) = sendEvents force s.
Proof.
  intros Hlen Hstep. rewrite (sendEvents_eq force s), sendEvents_eq.
  apply sendEvents_result_quiet. intros i Hi.
  apply emits_after_pass; [exact Hi|exact Hlen|apply Hstep; exact Hi].
Qed.

(** X3. A pass without the force flag over channels whose cached steps
    all equal the steps of their samplers is the identity: no packet, no
    LED call, no write. *)
Theorem sendEvents_unchanged_is_identity (s : Sketch) :
  (forall i, (i < n_potis)%nat -> _steps s !!! i = step_of s i) ->
  sendEvents false s = s.
Proof.
  intros Hsame. rewrite sendEvents_eq. apply sendEvents_result_quiet.
  intros i Hi. unfold emits. cbn [orb]. rewrite (Hsame i Hi), Z.eqb_refl. reflexivity.
Qed.

Lemma sent_length force s k : (length (sent force s k) <= k)%nat.
Proof.
  induction k as [|k IH]; [reflexivity|].
  rewrite sent_S, length_app. destruct (emits force s k); simpl; lia.
Qed.

Lemma sent_elements force s k m :
  In m (sent force s k) -> exists i, (i < k)%nat /\ m = cc_packet s i.
Proof.
  unfold sent. rewrite in_flat_map. intros (i & Hi & Hm).
  apply in_seq in Hi. exists i. split; [lia|].
  destruct (emits force s i); simpl in Hm; [|contradiction].
  destruct Hm as [<-|[]]. reflexivity.
Qed.

(** X4. What a pass sends: at most [n_potis] packets, each of them a
    control change on the configured channel, for a controller from
    [GeneralPurpose1] up to [GeneralPurpose1 + n_potis - 1], with the step
    of the sampler of that channel as its value. *)
Theorem sendEvents_packets (force : bool) (s : Sketch) :
  exists out : list Packet,
    usb_midi (sendEvents force s) = usb_midi s ++ out /\
    (length out <= n_potis)%nat /\
    forall m, In m out ->
      exists i, (i < n_potis)%nat /\
        message m =
          ControlChange (config_channel s) (GeneralPurpose1 + Z.of_nat i)
            (poti_getStep (_potis s !!! i)).
Proof.
  exists (sent force s n_potis). rewrite sendEvents_eq.
  split; [reflexivity|]. split; [apply sent_length|].
  intros m Hm. destruct (sent_elements _ _ _ _ Hm) as (i & Hi & ->).
  exists i. split; [exact Hi|reflexivity].
Qed.

(** X5. What a pass leaves alone: the configured channel, the samplers,
    both timer references, the socket, the onboard LED, the buffers of the
    dispatchers and the environment; the array of cached steps keeps its
    length, and the logs only grow. *)
Theorem sendEvents_frame (force : bool) (s : Sketch) :
  config_channel (sendEvents force s) = config_channel s /\
  _potis (sendEvents force s) = _potis s /\
  _measure_usec (sendEvents force s) = _measure_usec s /\
  _events_usec (sendEvents force s) = _events_usec s /\
  Socket (sendEvents force s) = Socket s /\
  led_onboard (sendEvents force s) = led_onboard s /\
  usb_connected (sendEvents force s) = usb_connected s /\
  MIDI_midi (sendEvents force s) = MIDI_midi s /\
  Link_midi (sendEvents force s) = Link_midi s /\
  clock_reads (sendEvents force s) = clock_reads s /\
  length (_steps (sendEvents force s)) = length (_steps s) /\
  usb_midi s `prefix_of` usb_midi (sendEvents force s) /\
  Plug s `prefix_of` Plug (sendEvents force s) /\
  LED s `prefix_of` LED (sendEvents force s).
Proof.
  rewrite sendEvents_eq.
  cbn [sendEvents_result config_channel _potis _steps _measure_usec _events_usec
         usb_midi usb_connected LED Plug Socket led_onboard MIDI_midi Link_midi
         clock_reads].
  repeat apply conj; try reflexivity.
  - apply cached_length.
  - apply prefix_app_r. reflexivity.
  - apply prefix_app_r. reflexivity.
  - apply prefix_app_r. reflexivity.
Qed.

(** *** The device as a whole *)

(** [play] either returns, or writes the pin and makes one call to [LED]. *)
Lemma play_shape note velocity s :
  play note velocity s = s \/
  exists c b, play note velocity s = set_LED (LED s ++ [c]) (set_led_onboard b s).
Proof.
  unfold play.
  destruct (note <? C3); [left; reflexivity|].
  destruct (Z.of_nat n_potis <=? to_int8 (note - C3)); [left; reflexivity|].
  right. destruct (0 <? velocity); eexists _, _; reflexivity.
Qed.

(** What handling one message sends, and that it keeps the channel. *)
Lemma dispatch_sent m s :
  config_channel (dispatch m s) = config_channel s /\
  exists out,
    usb_midi (dispatch m s) = usb_midi s ++ out /\
    Plug (dispatch m s) = Plug s ++ out /\
    (length out <= n_potis)%nat.
Proof.
  assert (Hplay : forall note velocity,
    config_channel (play note velocity s) = config_channel s /\
    exists out,
      usb_midi (play note velocity s) = usb_midi s ++ out /\
      Plug (play note velocity s) = Plug s ++ out /\ (length out <= n_potis)%nat).
  { intros note velocity.
    destruct (play_shape note velocity s) as [->|(c & b & ->)];
      (split; [reflexivity|]); exists []; rewrite !app_nil_r;
      repeat split; simpl; lia. }
  unfold dispatch. destruct (message m).
  - split; [reflexivity|]. exists []. rewrite !app_nil_r. repeat split. simpl. lia.
  - apply Hplay.
  - apply Hplay.
  - unfold handleControlChange, allNotesOff. destruct (_ || _).
    + rewrite sendEvents_eq. split; [reflexivity|].
      exists (sent true s n_potis). repeat split. apply sent_length.
    + split; [reflexivity|]. exists []. rewrite !app_nil_r. repeat split. simpl. lia.
  - unfold handleSystemReset, reset. rewrite handleReset_eq.
    split; [reflexivity|]. exists []. rewrite !app_nil_r. repeat split. simpl. lia.
  - split; [reflexivity|]. exists []. rewrite !app_nil_r. repeat split. simpl. lia.
Qed.

Lemma handleLoop_sent s :
  config_channel (handleLoop s) = config_channel s /\
  Socket (handleLoop s) = Socket s /\
  exists out,
    usb_midi (handleLoop s) = usb_midi s ++ out /\
    Plug (handleLoop s) = Plug s ++ out /\
    (length out <= n_potis)%nat.
Proof.
  unfold handleLoop.
  rewrite handleLoop_events_eq, handleLoop_measure_eq.
  destruct (10 * 1000 <? _);
    cbn [set_measure_usec set_clock_reads set_potis clock clock_reads _events_usec];
    destruct (50 * 1000 <? _); rewrite ?sendEvents_eq;
    (split; [reflexivity|]); (split; [reflexivity|]).
  - eexists. split; [reflexivity|]. split; [reflexivity|]. apply sent_length.
  - exists []. rewrite !app_nil_r. repeat split. simpl. lia.
  - eexists. split; [reflexivity|]. split; [reflexivity|]. apply sent_length.
  - exists []. rewrite !app_nil_r. repeat split. simpl. lia.
Qed.

(** X6. Whatever the device sends, handling a message or in an iteration
    of its loop, goes to the USB port and to the plug alike, and is at most
    [n_potis] packets per message and per iteration; the loop of the device
    never sends to the socket. *)
Theorem device_sends_to_usb_and_plug (m : Packet) (s : Sketch) :
  (exists out,
     usb_midi (dispatch m s) = usb_midi s ++ out /\
     Plug (dispatch m s) = Plug s ++ out /\
     (length out <= n_potis)%nat) /\
  (exists out,
     usb_midi (handleLoop s) = usb_midi s ++ out /\
     Plug (handleLoop s) = Plug s ++ out /\
     (length out <= n_potis)%nat) /\
  Socket (handleLoop s) = Socket s.
Proof.
  split; [apply dispatch_sent|].
  split; [apply handleLoop_sent|apply handleLoop_sent].
Qed.

(** X7. The configured channel is written by [importConfiguration] only:
    no message from the host, the parent or a child, no iteration of the
    loop and no reset changes it. *)
Theorem config_channel_kept
    (received : option Packet) (packet : LinkPacket) (s : Sketch) :
  config_channel (MIDI_loop received s) = config_channel s /\
  config_channel (receivePlug packet s) = config_channel s /\
  config_channel (receiveSocket packet s) = config_channel s /\
  config_channel (handleLoop s) = config_channel s /\
  config_channel (handleReset s) = config_channel s.
Proof.
  repeat apply conj.
  - unfold MIDI_loop. destruct received as [m|]; [|reflexivity].
    cbn [MIDI_midi set_MIDI_midi]. destruct (getPort m =? 0); [|reflexivity].
    rewrite (proj1 (dispatch_sent _ _)). reflexivity.
  - unfold receivePlug. destruct (getType packet); [|reflexivity].
    rewrite (proj1 (dispatch_sent _ _)). reflexivity.
  - unfold receiveSocket. destruct (getType packet); [|reflexivity].
    destruct (getAddress packet =? 15); [reflexivity|].
    destruct (usb_connected s); reflexivity.
  - apply handleLoop_sent.
  - rewrite handleReset_eq. reflexivity.
Qed.

(** X8. When both tasks run in one iteration of the loop, the emission
    pass works on the samples just taken: what the iteration sends is what
    a pass sends from the state with every sampler fed. *)
Theorem handleLoop_emits_fresh_samples (s : Sketch) :
  length (_potis s) = n_potis ->
  10 * 1000 < to_ulong (to_ulong (clock s (clock_reads s)) - _measure_usec s) ->
  50 * 1000 < to_ulong (to_ulong (clock s (S (S (clock_reads s)))) - _events_usec s) ->
  usb_midi (handleLoop s) =
    usb_midi (sendEvents false
                (set_potis (imap (fun i => poti_measure (raw_fraction s i)) (_potis s)) s)) /\
  _potis (handleLoop s) = imap (fun i => poti_measure (raw_fraction s i)) (_potis s) /\
  _measure_usec (handleLoop s) = to_ulong (clock s (S (clock_reads s))) /\
  _events_usec (handleLoop s) = to_ulong (clock s (S (S (S (clock_reads s))))).
Proof.
  intros Hlen Hm He. apply Z.ltb_lt in Hm, He.
  unfold handleLoop. rewrite handleLoop_events_eq, handleLoop_measure_eq, Hm.
  cbn [set_measure_usec set_clock_reads set_potis clock clock_reads _events_usec].
  rewrite He, !sendEvents_eq, update_each_imap by lia.
  repeat split.
Qed.

(** X9. When no task is due the iteration reads the clock twice and does
    nothing else. *)
Theorem handleLoop_idle (s : Sketch) :
  to_ulong (to_ulong (clock s (clock_reads s)) - _measure_usec s) <= 10 * 1000 ->
  to_ulong (to_ulong (clock s (S (clock_reads s))) - _events_usec s) <= 50 * 1000 ->
  handleLoop s = set_clock_reads (S (S (clock_reads s))) s.
Proof.
  intros Hm He. apply Z.ltb_ge in Hm, He.
  unfold handleLoop. rewrite handleLoop_events_eq, handleLoop_measure_eq, Hm.
  cbn [set_clock_reads clock clock_reads _events_usec].
  rewrite He. reflexivity.
Qed.

Lemma to_ulong_idem z : to_ulong (to_ulong z - 0) = to_ulong z.
Proof. unfold to_ulong. rewrite Z.sub_0_r. apply Z.mod_mod. lia. Qed.

(** X10. After a reset the reference of the sampling task is 0, so the
    next iteration samples exactly when the clock reads more than 10 ms:
    the samplers just reset are fed once and the reference becomes the time
    read.  The emission task waits until the clock is more than 50 ms past
    the time of the reset. *)
Theorem handleReset_then_loop (s : Sketch) :
  length (_potis s) = n_potis ->
  (10 * 1000 < to_ulong (clock s (S (clock_reads s))) ->
     _potis (handleLoop_measure (handleReset s)) =
       imap (fun i p => poti_measure (raw_fraction s i) (poti_reset p)) (_potis s) /\
     _measure_usec (handleLoop_measure (handleReset s)) =
       to_ulong (clock s (S (S (clock_reads s))))) /\
  (to_ulong (clock s (S (clock_reads s))) <= 10 * 1000 ->
     handleLoop_measure (handleReset s) =
       set_clock_reads (S (S (clock_reads s))) (handleReset s)) /\
  (to_ulong (to_ulong (clock s (S (clock_reads s))) - to_ulong (clock s (clock_reads s)))
     <= 50 * 1000 ->
     handleLoop_events (handleReset s) =
       set_clock_reads (S (S (clock_reads s))) (handleReset s)).
Proof.
  intros Hlen. rewrite handleLoop_measure_eq, handleLoop_events_eq, handleReset_eq.
  cbn [clock clock_reads _measure_usec _events_usec _potis set_potis set_clock_reads
         set_measure_usec].
  rewrite to_ulong_idem.
  repeat apply conj.
  - intros Hdue. apply Z.ltb_lt in Hdue. rewrite Hdue.
    cbn [set_measure_usec set_clock_reads set_potis _potis _measure_usec].
    split; [|reflexivity].
    rewrite !update_each_imap by (rewrite ?update_each_length, ?length_imap; lia).
    unfold raw_fraction. cbn [analog].
    apply list_eq. intros i. rewrite !list_lookup_imap.
    destruct (_potis s !! i); reflexivity.
  - intros Hnot. apply Z.ltb_ge in Hnot. rewrite Hnot. reflexivity.
  - intros Hnot. apply Z.ltb_ge in Hnot. rewrite Hnot. reflexivity.
Qed.

(** *** More on the dispatchers *)

(** X11. The two address rewrites are inverse: a packet of the host that
    the loop passes down to the socket comes back to the host as it was,
    when the child returns it under the address it was sent with. *)
Theorem router_port_round_trip (m : Packet) (s s' : Sketch) :
  getPort m <> 0 ->
  getPort m - 1 <> 0x0f ->
  usb_connected s' = true ->
  exists down,
    Socket (MIDI_loop (Some m) s) = Socket s ++ [down] /\
    getPort down = getPort m - 1 /\
    usb_midi (receiveSocket (mkLinkPacket LinkMIDI (getPort down) down) s') =
      usb_midi s' ++ [m].
Proof.
  intros Hport Hidle Hconnected.
  exists (mkPacket (getPort m - 1) (message m)).
  apply Z.eqb_neq in Hport, Hidle.
  unfold MIDI_loop, receiveSocket, getPort in *.
  cbn [MIDI_midi set_MIDI_midi getType getAddress payload port].
  rewrite Hport, Hidle, Hconnected.
  split; [reflexivity|]. split; [reflexivity|].
  cbn [set_Link_midi Link_midi usb_midi_send set_usb_midi usb_midi]. unfold setPort.
  cbn [message]. destruct m as [p msg]. cbn [port message]. do 3 f_equal. lia.
Qed.

(** A packet from the socket, of any type and address, writes at
    most the USB log, by one packet, and the buffer of the link: nothing
    goes to the plug or back to the socket, and the device is not touched.
    Packets that are not MIDI packets change nothing. *)
Theorem receiveSocket_frame (packet : LinkPacket) (s : Sketch) :
  (receiveSocket packet s = s \/
   exists m,
     receiveSocket packet s = set_usb_midi (usb_midi s ++ [m]) (set_Link_midi m s)) /\
  (getType packet = LinkOther -> receiveSocket packet s = s).
Proof.
  unfold receiveSocket. destruct (getType packet).
  - split; [|discriminate].
    destruct (getAddress packet =? 15); [left; reflexivity|].
    destruct (usb_connected s); [right; eexists; reflexivity|left; reflexivity].
  - split; [left|]; reflexivity.
Qed.

(** The buffers of the two dispatchers are not read by the device. *)
Lemma play_set_buffers note velocity b1 b2 s :
  play note velocity (set_MIDI_midi b1 (set_Link_midi b2 s)) =
  set_MIDI_midi b1 (set_Link_midi b2 (play note velocity s)).
Proof.
  unfold play.
  destruct (note <? C3); [reflexivity|].
  destruct (Z.of_nat n_potis <=? to_int8 (note - C3)); [reflexivity|].
  destruct (0 <? velocity); reflexivity.
Qed.

Lemma dispatch_set_buffers m b1 b2 s :
  dispatch m (set_MIDI_midi b1 (set_Link_midi b2 s)) =
  set_MIDI_midi b1 (set_Link_midi b2 (dispatch m s)).
Proof.
  unfold dispatch. destruct (message m).
  - reflexivity.
  - apply play_set_buffers.
  - apply play_set_buffers.
  - unfold handleControlChange, allNotesOff. destruct (_ || _); [|reflexivity].
    rewrite !sendEvents_eq. reflexivity.
  - unfold handleSystemReset, reset. rewrite !handleReset_eq. reflexivity.
  - reflexivity.
Qed.

Lemma set_buffers_idem b1 b2 c1 c2 (s : Sketch) :
  set_MIDI_midi b1 (set_Link_midi b2 (set_MIDI_midi c1 (set_Link_midi c2 s))) =
  set_MIDI_midi b1 (set_Link_midi b2 s).
Proof. reflexivity. Qed.

(** X12. A packet from the plug: one that is not a MIDI packet changes
    nothing; a MIDI packet is handled by the device whatever its link
    address and its port are, is never passed on to the socket, and has
    the effect on the device that the same packet has when it comes from
    the host on port 0 (the two states differ in the packet buffers of the
    dispatchers only). *)
Theorem receivePlug_like_host_port_0 (packet : LinkPacket) (s : Sketch) :
  (getType packet = LinkOther -> receivePlug packet s = s) /\
  Socket (receivePlug packet s) = Socket s /\
  (getType packet = LinkMIDI ->
     receivePlug packet s = dispatch (payload packet) (set_Link_midi (payload packet) s) /\
     (getPort (payload packet) = 0 ->
      forall b1 b2,
        set_MIDI_midi b1 (set_Link_midi b2 (receivePlug packet s)) =
        set_MIDI_midi b1 (set_Link_midi b2 (MIDI_loop (Some (payload packet)) s)))).
Proof.
  unfold receivePlug. destruct (getType packet).
  - split; [discriminate|]. cbn [Link_midi set_Link_midi].
    split; [rewrite dispatch_Socket; reflexivity|].
    intros _. split; [reflexivity|].
    intros Hport b1 b2. unfold MIDI_loop. cbn [MIDI_midi set_MIDI_midi].
    rewrite Hport. cbn [Z.eqb].
    rewrite <- (dispatch_set_buffers _ b1 b2 (set_Link_midi _ s)).
    rewrite <- (dispatch_set_buffers _ b1 b2 (set_MIDI_midi _ s)).
    reflexivity.
  - split; [reflexivity|]. split; [reflexivity|discriminate].
Qed.

(** *** More on notes *)

(** X13. The indicator a note handler addresses is one of the [n_potis]
    indicators of the strip: for all bytes of a note message the handler
    either changes nothing or writes the pin and makes one call for an
    indicator below [n_potis]. *)
Theorem note_indicator_in_range (channel note velocity : Z) (s : Sketch) :
  0 <= C3 ->
  (handleNote channel note velocity s = s \/
   exists c b i,
     (i < n_potis)%nat /\ led_for i c = true /\
     handleNote channel note velocity s = set_LED (LED s ++ [c]) (set_led_onboard b s)) /\
  (handleNoteOff channel note velocity s = s \/
   exists c b i,
     (i < n_potis)%nat /\ led_for i c = true /\
     handleNoteOff channel note velocity s = set_LED (LED s ++ [c]) (set_led_onboard b s)).
Proof.
  intros HC3.
  assert (Hplay : forall v,
    play (to_int8 note) v s = s \/
    exists c b i,
      (i < n_potis)%nat /\ led_for i c = true /\
      play (to_int8 note) v s = set_LED (LED s ++ [c]) (set_led_onboard b s)).
  { intros v. unfold play.
    destruct (Z.ltb_spec (to_int8 note) C3) as [|Hge]; [left; reflexivity|].
    destruct (Z.leb_spec (Z.of_nat n_potis) (to_int8 (to_int8 note - C3))) as [|Hlt];
      [left; reflexivity|].
    right.
    assert (Hrange : -128 <= to_int8 note < 128).
    { unfold to_int8. pose proof (Z.mod_pos_bound (note + 128) 256). lia. }
    rewrite (to_int8_small (to_int8 note - C3)) in * by lia.
    assert (Hidx : Z.of_nat (Z.to_nat (to_int8 note - C3)) = to_int8 note - C3)
      by (apply Z2Nat.id; lia).
    destruct (0 <? v); eexists _, _, (Z.to_nat (to_int8 note - C3));
      (split; [lia|]); (split; [|reflexivity]); cbn [led_for];
      rewrite Hidx; apply Z.eqb_refl. }
  split; apply Hplay.
Qed.

(** *** More on the configuration *)

Lemma json_get_set_ne key key' v (o : JsonObject) :
  key <> key' -> json_get key' (json_set key v o) = json_get key' o.
Proof.
  intros Hne. induction o as [|[k w] o IH]; simpl.
  - destruct (String.eqb_spec key key'); [contradiction|reflexivity].
  - destruct (String.eqb_spec k key) as [->|Hk]; simpl.
    + destruct (String.eqb_spec key key'); [contradiction|reflexivity].
    + destruct (String.eqb_spec k key'); [reflexivity|exact IH].
Qed.

(** Every import either leaves the state or stores a channel in 0..15. *)
Lemma importConfiguration_shape json s :
  importConfiguration json s = s \/
  exists k, 0 <= k <= 15 /\ importConfiguration json s = set_config_channel k s.
Proof.
  unfold importConfiguration.
  destruct (json_get "midi" json) as [[| | |json_midi|]|]; try (left; reflexivity).
  destruct (json_get "channel" json_midi) as [v|]; [|left; reflexivity].
  destruct (isNull v); [left; reflexivity|]. right.
  destruct (Z.ltb_spec (json_as_uint8 v) 1); [exists 0; split; [lia|reflexivity]|].
  destruct (Z.ltb_spec 16 (json_as_uint8 v)); [exists 15; split; [lia|reflexivity]|].
  exists (to_uint8 (json_as_uint8 v - 1)). split; [|reflexivity].
  rewrite to_uint8_small; lia.
Qed.

(** X15. An import of any document writes nothing but the channel, and
    keeps the channel in 0..15.  A document without the member "midi", with
    a "midi" that is not an object, without "channel" or with a null
    "channel" leaves the state as it is. *)
Theorem importConfiguration_any_document (json : JsonObject) (s : Sketch) :
  (importConfiguration json s = s \/
   exists k, 0 <= k <= 15 /\ importConfiguration json s = set_config_channel k s) /\
  (0 <= config_channel s <= 15 ->
   0 <= config_channel (importConfiguration json s) <= 15) /\
  (json_get "midi" json = None -> importConfiguration json s = s) /\
  (forall v, json_get "midi" json = Some v -> (forall o, v <> JObj o) ->
     importConfiguration json s = s) /\
  (forall o, json_get "midi" json = Some (JObj o) ->
     json_get "channel" o = None \/ json_get "channel" o = Some JNull ->
     importConfiguration json s = s).
Proof.
  repeat apply conj.
  - apply importConfiguration_shape.
  - intros Hrange.
    destruct (importConfiguration_shape json s) as [->|(k & Hk & ->)]; assumption.
  - intros Hnone. unfold importConfiguration. rewrite Hnone. reflexivity.
  - intros v Hv Hobj. unfold importConfiguration. rewrite Hv.
    destruct v as [| | |o|]; try reflexivity. exfalso. apply (Hobj o). reflexivity.
  - intros o Ho Hchannel. unfold importConfiguration. rewrite Ho.
    destruct Hchannel as [-> | ->]; reflexivity.
Qed.

(** X16. Import, then export: the exported channel is the imported one
    clamped to 1..16, so a channel in 1..16 comes back as it went in. *)
Theorem import_then_export_channel
    (json json_midi json' : JsonObject) (v : Json) (s : Sketch) :
  json_get "midi" json = Some (JObj json_midi) ->
  json_get "channel" json_midi = Some v ->
  isNull v = false ->
  exists o,
    json_get "midi" (exportConfiguration json' (importConfiguration json s)) =
      Some (JObj o) /\
    json_get "channel" o = Some (JInt (Z.max 1 (Z.min 16 (json_as_uint8 v)))).
Proof.
  intros Hmidi Hchannel Hnull.
  destruct (exportConfiguration_channel json' (importConfiguration json s))
    as (o & Ho & Hc).
  exists o. split; [exact Ho|]. rewrite Hc. do 2 f_equal.
  unfold importConfiguration. rewrite Hmidi, Hchannel, Hnull.
  destruct (Z.ltb_spec (json_as_uint8 v) 1);
    [|destruct (Z.ltb_spec 16 (json_as_uint8 v))]; cbn [config_channel set_config_channel].
  - lia.
  - lia.
  - rewrite to_uint8_small by lia. lia.
Qed.

(** X17. The exports write their own members only ("midi" and "#midi",
    "chromatic", "channel" and "controllers"): every other member of the
    document is kept as it is. *)
Theorem exports_keep_other_members (key : string) (json : JsonObject) (s : Sketch) :
  (key <> "midi"%string -> key <> "#midi"%string ->
   json_get key (exportConfiguration json s) = json_get key json) /\
  (key <> "chromatic"%string -> json_get key (exportInput json) = json_get key json) /\
  (key <> "channel"%string -> key <> "controllers"%string ->
   json_get key (exportOutput json s).1 = json_get key json).
Proof.
  repeat apply conj.
  - intros H1 H2. unfold exportConfiguration.
    rewrite !json_get_set_ne by congruence. reflexivity.
  - intros H1. unfold exportInput. rewrite json_get_set_ne by congruence. reflexivity.
  - intros H1 H2. unfold exportOutput. cbn [fst].
    rewrite !json_get_set_ne by congruence. reflexivity.
Qed.

(** *** The descriptors *)

Lemma handleNote_in_window channel note velocity s :
  0 <= C3 -> C3 + Z.of_nat n_potis <= 128 ->
  C3 <= note < C3 + Z.of_nat n_potis ->
  exists c b, handleNote channel note velocity s = set_LED (LED s ++ [c]) (set_led_onboard b s).
Proof.
  intros HC3 Hwin Hin. unfold handleNote, play.
  rewrite (to_int8_small note) by lia.
  rewrite (proj2 (Z.ltb_ge note C3)) by lia.
  rewrite (to_int8_small (note - C3)) by lia.
  rewrite (proj2 (Z.leb_gt (Z.of_nat n_potis) (note - C3))) by lia.
  destruct (0 <? to_int8 velocity); eexists _, _; reflexivity.
Qed.

Lemma handleNote_out_of_window channel note velocity s :
  0 <= C3 -> 0 <= note < 256 ->
  note < C3 \/ C3 + Z.of_nat n_potis <= note ->
  handleNote channel note velocity s = s.
Proof.
  intros HC3 Hnote Hout. unfold handleNote, play.
  destruct (Z.ltb_spec (to_int8 note) C3) as [|Hge]; [reflexivity|].
  destruct (Z.leb_spec (Z.of_nat n_potis) (to_int8 (to_int8 note - C3))) as [|Hlt];
    [reflexivity|].
  exfalso. destruct (Z_lt_le_dec note 128).
  - rewrite (to_int8_small note) in * by lia.
    rewrite (to_int8_small (note - C3)) in Hlt by lia. lia.
  - rewrite (to_int8_high note) in Hge by lia. lia.
Qed.

(** X18. The note range [exportInput] announces is the range the device
    reacts to: a note on changes the state exactly when its note number is
    at least "start" and below "start" plus "count". *)
Theorem exportInput_announces_note_window (json : JsonObject) :
  0 <= C3 ->
  C3 + Z.of_nat n_potis <= 128 ->
  exists chromatic start count,
    json_get "chromatic" (exportInput json) = Some (JObj chromatic) /\
    json_get "start" chromatic = Some (JInt start) /\
    json_get "count" chromatic = Some (JInt count) /\
    forall channel note velocity s,
      0 <= note < 256 ->
      (handleNote channel note velocity s <> s <-> start <= note < start + count).
Proof.
  intros HC3 Hwin. eexists _, C3, (Z.of_nat n_potis).
  split; [apply json_get_set_eq|]. split; [reflexivity|]. split; [reflexivity|].
  intros channel note velocity s Hnote. split.
  - intros Hchanged.
    destruct (Z_lt_le_dec note C3) as [Hlo|Hlo];
      [|destruct (Z_lt_le_dec note (C3 + Z.of_nat n_potis)) as [Hhi|Hhi]; [lia|]];
      exfalso; apply Hchanged; apply handleNote_out_of_window; lia || assumption.
  - intros Hin Hsame.
    destruct (handleNote_in_window channel note velocity s HC3 Hwin Hin) as (c & b & Hc).
    rewrite Hc in Hsame. apply (f_equal (fun t => length (LED t))) in Hsame.
    cbn [LED set_LED] in Hsame. rewrite length_app in Hsame. simpl in Hsame. lia.
Qed.

(** X19. The entry [exportSettings] adds to the array names the place of
    the channel in the configuration: its "path" is the member that
    [exportConfiguration] writes and its "field" the member in there that
    holds the channel, and the entries that were in the array are kept. *)
Theorem exportSettings_names_channel_place (array : JsonArray) (json : JsonObject) (s : Sketch) :
  exists entry configuration path field,
    exportSettings array = array ++ [JObj entry] /\
    json_get "configuration" entry = Some (JObj configuration) /\
    json_get "path" configuration = Some (JStr path) /\
    json_get "field" configuration = Some (JStr field) /\
    exists o,
      json_get path (exportConfiguration json s) = Some (JObj o) /\
      json_get field o = Some (JInt (config_channel s + 1)) /\
      json_get "configuration" o = Some (JObj configuration).
Proof.
  eexists _, _, "midi"%string, "channel"%string.
  split; [reflexivity|]. split; [reflexivity|]. split; [reflexivity|].
  split; [reflexivity|].
  eexists. split; [apply json_get_set_eq|]. split; reflexivity.
Qed.


(** The member "controllers" of the document is the array. *)
Lemma exportOutput_controllers_member json s :
  json_get "controllers" (exportOutput json s).1 = Some (JArr (exportOutput json s).2).
Proof. unfold exportOutput. cbn [fst snd]. apply json_get_set_eq. Qed.


(** X21. The name of every controller, with its terminating zero, fits
    the buffer [char name[11]] that [sprintf] writes to; this holds for up
    to 99 channels. *)
Theorem controller_name_fits_buffer (i : nat) :
  (i < n_potis)%nat \/ (i < 99)%nat ->
  (String.length (controller_name i) + 1 <= controller_name_size)%nat.
Proof.
  intros Hi.
  assert (Hi' : (i < 99)%nat) by (unfold n_potis in Hi; lia).
  assert (Hall : forallb (fun i => (String.length (controller_name i) + 1 <=? controller_name_size)%nat)
                   (seq 0 99) = true) by (vm_compute; reflexivity).
  rewrite forallb_forall in Hall.
  apply Nat.leb_le. apply Hall. apply in_seq. lia.
Qed.

End Properties.

(** ** The properties on concrete inputs *)

Section Examples.

#[local] Existing Instance Ref.libraries.

Import Ref.

(** Channel 0 turned to the middle (step 63, cached step 0): the pass sends
    one packet for it, controller 16 with value 63. *)
Lemma sendEvents_emits_on_change_witness :
  length (_steps turned) = n_potis /\ (0 < n_potis)%nat /\
  0 <= step_of turned 0 < 256 /\
  _steps turned !!! 0%nat <> step_of turned 0 /\
  exists out calls,
    usb_midi (sendEvents false turned) = usb_midi turned ++ out /\
    Plug (sendEvents false turned) = Plug turned ++ out /\
    LED (sendEvents false turned) = LED turned ++ calls /\
    List.filter (for_channel 0) out = [mkPacket 0 (ControlChange 0 16 63)] /\
    List.filter (led_for 0) calls = [LedSetBrightness 0 (1 # 2)] /\
    _steps (sendEvents false turned) !!! 0%nat = 63.
Proof.
  assert (Hlen : length (_steps turned) = n_potis) by reflexivity.
  assert (Hi : (0 < n_potis)%nat) by (unfold n_potis; lia).
  assert (Hstep : 0 <= step_of turned 0 < 256) by (vm_compute; intuition congruence).
  assert (Hne : _steps turned !!! 0%nat <> step_of turned 0) by (vm_compute; congruence).
  repeat (split; [assumption|]).
  destruct (sendEvents_emits_on_change turned 0 Hlen Hi Hstep)
    as (out & calls & Husb & Hplug & Hled & Hchanged & _).
  destruct (Hchanged Hne) as (Hout & Hcalls & Hcache).
  exists out, calls. repeat (split; [assumption|]). exact Hcache.
Defined.

(** A packet of a child at address 3 goes to the connected host on port 4. *)
Lemma receiveSocket_forwards_to_host_witness :
  let packet := mkLinkPacket LinkMIDI 3 (mkPacket 0 (NoteOn 0 60 100)) in
  getType packet = LinkMIDI /\
  usb_midi (receiveSocket packet turned) = [mkPacket 4 (NoteOn 0 60 100)].
Proof.
  intros packet.
  assert (Htype : getType packet = LinkMIDI) by reflexivity.
  split; [exact Htype|].
  destruct (receiveSocket_forwards_to_host packet turned Htype) as (_ & Hfwd).
  destruct (Hfwd ltac:(discriminate)) as (Hconnected & _).
  rewrite (Hconnected eq_refl). reflexivity.
Defined.


(** 20 ms after the reference the sampling task runs: both samplers are
    fed 512/1023 and the reference becomes 21 ms; 1 ms later it does not
    run again.  The emission task, 20 ms after its reference, does not run. *)
Lemma handleLoop_runs_tasks_when_overdue_witness :
  length (_potis late) = n_potis /\
  _potis (handleLoop_measure late) = [512 # 1023; 512 # 1023] /\
  _measure_usec (handleLoop_measure late) = 21000 /\
  _potis (handleLoop_measure (handleLoop_measure late)) = [512 # 1023; 512 # 1023] /\
  _measure_usec (handleLoop_measure (handleLoop_measure late)) = 21000 /\
  handleLoop_events late = set_clock_reads 1 late.
Proof.
  assert (Hlen : length (_potis late) = n_potis) by reflexivity.
  split; [exact Hlen|].
  destruct (handleLoop_runs_tasks_when_overdue late Hlen)
    as (Hmeasure & _ & _ & Hevents & _).
  destruct (Hmeasure ltac:(vm_compute; reflexivity)) as (Hrun & Hnext).
  rewrite (Hnext ltac:(vm_compute; congruence)).
  rewrite Hrun, (Hevents ltac:(vm_compute; congruence)).
  repeat split.
Defined.

(** All sound off (controller 120): two packets, for the controllers 16
    and 17, although channel 1 did not change. *)
Lemma handleControlChange_forced_flush_witness :
  (120 = AllSoundOff \/ 120 = AllNotesOff) /\
  exists out,
    usb_midi (handleControlChange 0 120 0 turned) = usb_midi turned ++ out /\
    length out = 2%nat /\
    out !! 0%nat = Some (mkPacket 0 (ControlChange 0 16 63)) /\
    out !! 1%nat = Some (mkPacket 0 (ControlChange 0 17 0)).
Proof.
  assert (Hc : 120 = AllSoundOff \/ 120 = AllNotesOff) by (left; reflexivity).
  split; [exact Hc|].
  destruct (handleControlChange_forced_flush 0 120 0 turned Hc)
    as (out & Husb & _ & Hlen & _ & Hout).
  exists out. split; [exact Husb|]. split; [exact Hlen|].
  split; apply Hout; unfold n_potis; lia.
Defined.


(** A reset of the state [late], with the clock at 20 ms. *)
Lemma handleReset_restores_initial_state_witness :
  length (_potis (sendEvents true (handleLoop late))) = n_potis /\
  _steps (handleReset (sendEvents true (handleLoop late))) = [0; 0] /\
  _measure_usec (handleReset (sendEvents true (handleLoop late))) = 0 /\
  _potis (handleReset (sendEvents true (handleLoop late))) = [0%Q; 0%Q] /\
  MIDI_midi (handleReset (sendEvents true (handleLoop late))) = Packet_init.
Proof.
  assert (Hlen : length (_potis (sendEvents true (handleLoop late))) = n_potis)
    by reflexivity.
  split; [exact Hlen|].
  destruct (handleReset_restores_initial_state _ Hlen)
    as (Hsteps & _ & Hmeasure & _ & _ & Hpotis & _ & _ & _ & Hbuffer & _).
  rewrite Hsteps, Hmeasure, Hpotis, Hbuffer. repeat split.
Defined.

(** The stored channel 9 is exported as 10, and imported as 9 again. *)
Lemma export_then_import_channel_witness :
  let s := set_config_channel 9 turned in
  0 <= config_channel s <= 15 /\
  (forall z, 0 <= z <= 255 -> json_as_uint8 (JInt z) = z) /\
  config_channel (importConfiguration (exportConfiguration [] s) turned) = 9.
Proof.
  intros s.
  assert (Hrange : 0 <= config_channel s <= 15) by (vm_compute; intuition congruence).
  assert (Hconv : forall z, 0 <= z <= 255 -> json_as_uint8 (JInt z) = z).
  { intros z Hz. cbn.
    rewrite (proj2 (Z.leb_le 0 z)), (proj2 (Z.leb_le z 255)) by lia. reflexivity. }
  split; [exact Hrange|]. split; [exact Hconv|].
  destruct (export_then_import_channel [] s turned Hrange Hconv) as (_ & Himport & _).
  exact Himport.
Defined.

(** The volume controller 7 is none of the two: nothing happens. *)
Lemma handleControlChange_other_controller_witness :
  7 <> AllSoundOff /\ 7 <> AllNotesOff /\
  handleControlChange 0 7 100 turned = turned.
Proof.
  assert (H1 : 7 <> AllSoundOff) by (vm_compute; congruence).
  assert (H2 : 7 <> AllNotesOff) by (vm_compute; congruence).
  split; [exact H1|]. split; [exact H2|].
  exact (handleControlChange_other_controller 0 7 100 turned H1 H2).
Defined.

(** A system reset message arrives from the host while the clock reads
    5 ms.  After the reset the buffer of [MIDI] still holds the packet
    received, not the initial packet; and the next iteration of the loop
    takes no sample, although the inputs read 512. *)
Lemma handleReset_keeps_received_packet :
  MIDI_midi (MIDI_loop (Some (mkPacket 0 SystemReset)) early) = mkPacket 0 SystemReset /\
  MIDI_midi (handleReset (set_MIDI_midi (mkPacket 0 SystemReset) early)) <> Packet_init /\
  _measure_usec (handleReset early) = 0 /\
  _potis (handleLoop (handleReset early)) = _potis (handleReset early) /\
  _potis (handleReset early) <>
    imap (fun i => poti_measure (raw_fraction early i)) (_potis (handleReset early)).
Proof.
  split; [reflexivity|]. split; [vm_compute; congruence|].
  split; [reflexivity|]. split; [reflexivity|]. vm_compute. congruence.
Qed.


(** The clock reads exactly 10 ms, the reference of the sampling task is 0
    and the inputs read 512: the time since the reference is 10 ms, yet the
    task does not run, the samplers are not fed and the reference is not
    the time read.  Likewise for the emission task at exactly 50 ms, with a
    changed channel waiting to be sent. *)
Lemma handleLoop_idle_at_exact_period :
  (10 * 1000 <= to_ulong (to_ulong (clock at10 (clock_reads at10)) - _measure_usec at10) /\
   handleLoop_measure at10 = set_clock_reads 1 at10 /\
   _potis (handleLoop_measure at10) <>
     imap (fun i => poti_measure (raw_fraction at10 i)) (_potis at10) /\
   _measure_usec (handleLoop_measure at10) <> to_ulong (clock at10 1)) /\
  (50 * 1000 <= to_ulong (to_ulong (clock at50 (clock_reads at50)) - _events_usec at50) /\
   handleLoop_events at50 = set_clock_reads 1 at50 /\
   usb_midi (handleLoop_events at50) = [] /\
   usb_midi (sendEvents false at50) = [mkPacket 0 (ControlChange 0 16 63)]).
Proof.
  split.
  - split; [vm_compute; congruence|].
    split; [reflexivity|].
    split; vm_compute; congruence.
  - split; [vm_compute; congruence|].
    repeat split.
Defined.

(** After a pass the cache of the turned channel 0 holds its step 63. *)
Lemma sendEvents_cache_in_sync_witness :
  length (_steps turned) = n_potis /\ (0 < n_potis)%nat /\
  0 <= step_of turned 0 < 256 /\
  _steps (sendEvents false turned) !!! 0%nat = 63.
Proof.
  assert (Hlen : length (_steps turned) = n_potis) by reflexivity.
  assert (Hi : (0 < n_potis)%nat) by (unfold n_potis; lia).
  assert (Hstep : 0 <= step_of turned 0 < 256) by (vm_compute; intuition congruence).
  repeat (split; [assumption|]).
  destruct (sendEvents_cache_in_sync false turned 0 Hlen Hi Hstep) as (Hsync & Hsame).
  rewrite Hsync, Hsame. reflexivity.
Defined.

Lemma turned_steps_fit : forall i, (i < n_potis)%nat -> 0 <= step_of turned i < 256.
Proof.
  intros i Hi. unfold n_potis in Hi.
  destruct i as [|[|i]]; [| |lia]; vm_compute; intuition congruence.
Qed.

(** The second pass over the turned channel sends nothing more. *)
Lemma sendEvents_second_pass_silent_witness :
  length (_steps turned) = n_potis /\
  (forall i, (i < n_potis)%nat -> 0 <= step_of turned i < 256) /\
  usb_midi (sendEvents false (sendEvents false turned)) =
    [mkPacket 0 (ControlChange 0 16 63)].
Proof.
  assert (Hlen : length (_steps turned) = n_potis) by reflexivity.
  split; [exact Hlen|]. split; [exact turned_steps_fit|].
  rewrite (sendEvents_second_pass_silent false turned Hlen turned_steps_fit).
  reflexivity.
Defined.

(** At rest, with the cached steps equal to the steps, a pass is idle. *)
Lemma sendEvents_unchanged_is_identity_witness :
  (forall i, (i < n_potis)%nat -> _steps early !!! i = step_of early i) /\
  sendEvents false early = early.
Proof.
  assert (Hsame : forall i, (i < n_potis)%nat -> _steps early !!! i = step_of early i).
  { intros i Hi. unfold n_potis in Hi. destruct i as [|[|i]]; [| |lia]; reflexivity. }
  split; [exact Hsame|]. exact (sendEvents_unchanged_is_identity early Hsame).
Defined.

(** Both tasks due: the iteration feeds 512/1023 (step 63) to both
    samplers and sends both changes at once. *)
Lemma handleLoop_emits_fresh_samples_witness :
  length (_potis overdue) = n_potis /\
  10 * 1000 <
    to_ulong (to_ulong (clock overdue (clock_reads overdue)) - _measure_usec overdue) /\
  50 * 1000 <
    to_ulong (to_ulong (clock overdue (S (S (clock_reads overdue)))) - _events_usec overdue) /\
  usb_midi (handleLoop overdue) =
    [mkPacket 0 (ControlChange 0 16 63); mkPacket 0 (ControlChange 0 17 63)].
Proof.
  assert (Hlen : length (_potis overdue) = n_potis) by reflexivity.
  assert (Hm : 10 * 1000 <
    to_ulong (to_ulong (clock overdue (clock_reads overdue)) - _measure_usec overdue))
    by (vm_compute; reflexivity).
  assert (He : 50 * 1000 <
    to_ulong (to_ulong (clock overdue (S (S (clock_reads overdue)))) - _events_usec overdue))
    by (vm_compute; reflexivity).
  repeat (split; [assumption|]).
  rewrite (proj1 (handleLoop_emits_fresh_samples overdue Hlen Hm He)). reflexivity.
Defined.

(** At 5 ms no task is due. *)
Lemma handleLoop_idle_witness :
  to_ulong (to_ulong (clock early (clock_reads early)) - _measure_usec early) <= 10 * 1000 /\
  to_ulong (to_ulong (clock early (S (clock_reads early))) - _events_usec early) <= 50 * 1000 /\
  handleLoop early = set_clock_reads 2 early.
Proof.
  assert (Hm : to_ulong (to_ulong (clock early (clock_reads early)) - _measure_usec early)
               <= 10 * 1000) by (vm_compute; congruence).
  assert (He : to_ulong (to_ulong (clock early (S (clock_reads early))) - _events_usec early)
               <= 50 * 1000) by (vm_compute; congruence).
  repeat (split; [assumption|]).
  exact (handleLoop_idle early Hm He).
Defined.

(** A reset at 20 ms: the next iteration, at 21 ms, samples, and the
    emission task waits. *)
Lemma handleReset_then_loop_witness :
  length (_potis late) = n_potis /\
  _potis (handleLoop_measure (handleReset late)) = [512 # 1023; 512 # 1023] /\
  _measure_usec (handleLoop_measure (handleReset late)) = 22000 /\
  handleLoop_events (handleReset late) = set_clock_reads 2 (handleReset late).
Proof.
  assert (Hlen : length (_potis late) = n_potis) by reflexivity.
  split; [exact Hlen|].
  destruct (handleReset_then_loop late Hlen) as (Hsample & _ & Hwait).
  destruct (Hsample ltac:(vm_compute; reflexivity)) as (Hpotis & Hstamp).
  rewrite Hpotis, Hstamp, (Hwait ltac:(vm_compute; congruence)).
  repeat split.
Defined.

(** A note for the device at port 3: down as port 2, back as port 3. *)
Lemma router_port_round_trip_witness :
  let m := mkPacket 3 (NoteOn 0 60 100) in
  getPort m <> 0 /\ getPort m - 1 <> 0x0f /\ usb_connected turned = true /\
  exists down,
    Socket (MIDI_loop (Some m) turned) = [down] /\
    getPort down = 2 /\
    usb_midi (receiveSocket (mkLinkPacket LinkMIDI (getPort down) down) turned) = [m].
Proof.
  intros m.
  assert (H1 : getPort m <> 0) by discriminate.
  assert (H2 : getPort m - 1 <> 0x0f) by discriminate.
  assert (H3 : usb_connected turned = true) by reflexivity.
  repeat (split; [assumption|]).
  exact (router_port_round_trip m turned turned H1 H2 H3).
Defined.

(** With the notes from 60: every note byte leaves the strip alone or
    addresses one of its two indicators. *)
Lemma note_indicator_in_range_witness :
  0 <= C3 /\
  (handleNote 0 61 100 turned = turned \/
   exists c b i,
     (i < n_potis)%nat /\ led_for i c = true /\
     handleNote 0 61 100 turned = set_LED (LED turned ++ [c]) (set_led_onboard b turned)).
Proof.
  assert (HC3 : 0 <= C3) by (vm_compute; congruence).
  split; [exact HC3|].
  exact (proj1 (note_indicator_in_range 0 61 100 turned HC3)).
Defined.

(** The velocity byte 255 on note 61 switches indicator 1 off. *)
Lemma handleNote_velocity_high_witness :
  0 <= C3 /\ C3 + Z.of_nat n_potis <= 128 /\
  C3 <= 61 < C3 + Z.of_nat n_potis /\ 128 <= 255 < 256 /\
  LED (handleNote 0 61 255 turned) = [LedSetBrightness 1 0%Q].
Proof.
  assert (HC3 : 0 <= C3) by (vm_compute; congruence).
  assert (Hwin : C3 + Z.of_nat n_potis <= 128) by (vm_compute; congruence).
  assert (Hin : C3 <= 61 < C3 + Z.of_nat n_potis) by (vm_compute; intuition congruence).
  assert (Hvel : 128 <= 255 < 256) by lia.
  repeat (split; [assumption|]).
  rewrite (handleNote_velocity_high 0 61 255 turned HC3 Hwin Hin Hvel). reflexivity.
Defined.

(** The channel 20 is imported as 15 and exported as 16. *)
Lemma import_then_export_channel_witness :
  let json := [("midi"%string, JObj [("channel"%string, JInt 20)])] in
  json_get "midi" json = Some (JObj [("channel"%string, JInt 20)]) /\
  json_get "channel" [("channel"%string, JInt 20)] = Some (JInt 20) /\
  isNull (JInt 20) = false /\
  exists o,
    json_get "midi" (exportConfiguration [] (importConfiguration json turned)) =
      Some (JObj o) /\
    json_get "channel" o = Some (JInt 16).
Proof.
  intros json.
  assert (H1 : json_get "midi" json = Some (JObj [("channel"%string, JInt 20)]))
    by reflexivity.
  assert (H2 : json_get "channel" [("channel"%string, JInt 20)] = Some (JInt 20))
    by reflexivity.
  assert (H3 : isNull (JInt 20) = false) by reflexivity.
  repeat (split; [assumption|]).
  exact (import_then_export_channel json _ [] (JInt 20) turned H1 H2 H3).
Defined.

(** With the notes from 60 the window announced is 60 and 61. *)
Lemma exportInput_announces_note_window_witness :
  0 <= C3 /\ C3 + Z.of_nat n_potis <= 128 /\
  exists chromatic start count,
    json_get "chromatic" (exportInput []) = Some (JObj chromatic) /\
    json_get "start" chromatic = Some (JInt start) /\
    json_get "count" chromatic = Some (JInt count) /\
    forall channel note velocity (s : Sketch),
      0 <= note < 256 ->
      (handleNote channel note velocity s <> s <-> start <= note < start + count).
Proof.
  assert (HC3 : 0 <= C3) by (vm_compute; congruence).
  assert (Hwin : C3 + Z.of_nat n_potis <= 128) by (vm_compute; congruence).
  repeat (split; [assumption|]).
  exact (exportInput_announces_note_window [] HC3 Hwin).
Defined.

(** "Channel 2" and its zero take 10 of the 11 bytes. *)
Lemma controller_name_fits_buffer_witness :
  ((1 < n_potis)%nat \/ (1 < 99)%nat) /\
  controller_name 1 = "Channel 2"%string /\
  (String.length (controller_name 1) + 1 <= controller_name_size)%nat.
Proof.
  assert (Hi : (1 < n_potis)%nat \/ (1 < 99)%nat) by (right; lia).
  split; [exact Hi|]. split; [reflexivity|].
  exact (controller_name_fits_buffer 1 Hi).
Defined.

End Examples.
